(** * Worker utilities: deletion cascade, follower migration, account
      counters and interaction approvals

    Shallow embedding of [internal/processing/workers/util.go].

    The functions of that file are methods of [utils], whose fields (the
    database, the media and account processors, the timeline surface, the
    scheduler) are interfaces to code outside the file.  They are modelled
    as a record of operations over an abstract world [W]; every call made
    by a function is recorded, with its arguments and its result, in a
    trace, so that statements such as "the call is attempted" or "nothing
    is called after the failure" can be stated on the trace. *)

From Stdlib Require Import ZArith Ascii String List Bool Lia.
Import ListNotations.
Set Warnings "-register-all".
Local Open Scope string_scope.
Local Open Scope list_scope.
Local Open Scope Z_scope.

(** ** Errors *)

(** Go [error] values as the file sees them: the sentinel
    [db.ErrNoEntries], any other error of a collaborator, an error wrapped
    under a format "<annotation>%w" ([gtserror.Newf], [MultiError.Appendf]),
    and the combination returned by [MultiError.Combine]. *)
Inductive error : Type :=
| ErrNoEntries
| ErrOther (msg : string)
| Wrapf (annotation : string) (cause : error)
| Joined (errs : list error).

(** [errors.Is(err, db.ErrNoEntries)]: the sentinel is looked for along the
    chain of wrapped errors. *)
Fixpoint errors_Is_ErrNoEntries (err : error) : bool :=
  match err with
  | ErrNoEntries => true
  | ErrOther _ => false
  | Wrapf _ cause => errors_Is_ErrNoEntries cause
  | Joined errs => existsb errors_Is_ErrNoEntries errs
  end.


(** Modelled from the spec: the Error Aggregator ([gtserror.MultiError],
    not part of the file).  It is an ordered sequence of error records;
    [Appendf] adds one failure under a human-readable annotation of the step
    that failed; [Combine] gives success when nothing was appended and
    otherwise one error whose message enumerates every appended failure. *)
Definition MultiError : Type := list error.

Definition Appendf (errs : MultiError) (annotation : string) (err : error) : MultiError :=
  errs ++ [Wrapf annotation err].

Definition Combine (errs : MultiError) : option error :=
  match errs with
  | [] => None
  | _ :: _ => Some (Joined errs)
  end.

(** ** Data model ([gtsmodel], [apimodel]): the fields the file reads or writes *)

(** Go's [int] on the 64-bit targets: arithmetic wraps around. *)
Definition intSize : Z := 64.
Definition maxInt : Z := 2 ^ (intSize - 1) - 1.
Definition minInt : Z := - 2 ^ (intSize - 1).
Definition wrapInt (z : Z) : Z := (z - minInt) mod 2 ^ intSize + minInt.

Module AccountStats.
Record t : Type := mk {
  AccountID : string;
  FollowersCount : Z;
  FollowingCount : Z;
  FollowRequestsCount : Z;
  StatusesCount : Z;
  LastStatusAt : Z
}.
Definition set_FollowersCount (s : t) (v : Z) : t :=
  mk (AccountID s) v (FollowingCount s) (FollowRequestsCount s) (StatusesCount s) (LastStatusAt s).
Definition set_FollowingCount (s : t) (v : Z) : t :=
  mk (AccountID s) (FollowersCount s) v (FollowRequestsCount s) (StatusesCount s) (LastStatusAt s).
Definition set_FollowRequestsCount (s : t) (v : Z) : t :=
  mk (AccountID s) (FollowersCount s) (FollowingCount s) v (StatusesCount s) (LastStatusAt s).
Definition set_StatusesCount (s : t) (v : Z) : t :=
  mk (AccountID s) (FollowersCount s) (FollowingCount s) (FollowRequestsCount s) v (LastStatusAt s).
Definition set_LastStatusAt (s : t) (v : Z) : t :=
  mk (AccountID s) (FollowersCount s) (FollowingCount s) (FollowRequestsCount s) (StatusesCount s) v.
End AccountStats.

Module Account.
Record t : Type := mk {
  ID : string;
  URI : string;
  Username : string;
  Stats : option AccountStats.t
}.
Definition set_Stats (a : t) (v : option AccountStats.t) : t :=
  mk (ID a) (URI a) (Username a) v.
End Account.

Module Status.
Record t : Type := mk {
  ID : string;
  URI : string;
  CreatedAt : Z;
  AccountID : string;
  Account : option Account.t;
  AttachmentIDs : list string;
  MentionIDs : list string;
  PollID : string;
  InReplyToAccountID : string;
  InReplyToAccount : option Account.t;
  BoostOfAccountID : string;
  BoostOfAccount : option Account.t;
  PendingApproval : option bool;
  PreApproved : bool;
  ApprovedByURI : string
}.
Definition set_PendingApproval (s : t) (v : option bool) : t :=
  mk (ID s) (URI s) (CreatedAt s) (AccountID s) (Account s) (AttachmentIDs s) (MentionIDs s)
    (PollID s) (InReplyToAccountID s) (InReplyToAccount s) (BoostOfAccountID s)
    (BoostOfAccount s) v (PreApproved s) (ApprovedByURI s).
Definition set_PreApproved (s : t) (v : bool) : t :=
  mk (ID s) (URI s) (CreatedAt s) (AccountID s) (Account s) (AttachmentIDs s) (MentionIDs s)
    (PollID s) (InReplyToAccountID s) (InReplyToAccount s) (BoostOfAccountID s)
    (BoostOfAccount s) (PendingApproval s) v (ApprovedByURI s).
Definition set_ApprovedByURI (s : t) (v : string) : t :=
  mk (ID s) (URI s) (CreatedAt s) (AccountID s) (Account s) (AttachmentIDs s) (MentionIDs s)
    (PollID s) (InReplyToAccountID s) (InReplyToAccount s) (BoostOfAccountID s)
    (BoostOfAccount s) (PendingApproval s) (PreApproved s) v.
End Status.

Module StatusFave.
Record t : Type := mk {
  ID : string;
  URI : string;
  AccountID : string;
  Account : option Account.t;
  TargetAccountID : string;
  TargetAccount : option Account.t;
  PendingApproval : option bool;
  PreApproved : bool;
  ApprovedByURI : string
}.
Definition set_PendingApproval (f : t) (v : option bool) : t :=
  mk (ID f) (URI f) (AccountID f) (Account f) (TargetAccountID f) (TargetAccount f)
    v (PreApproved f) (ApprovedByURI f).
Definition set_PreApproved (f : t) (v : bool) : t :=
  mk (ID f) (URI f) (AccountID f) (Account f) (TargetAccountID f) (TargetAccount f)
    (PendingApproval f) v (ApprovedByURI f).
Definition set_ApprovedByURI (f : t) (v : string) : t :=
  mk (ID f) (URI f) (AccountID f) (Account f) (TargetAccountID f) (TargetAccount f)
    (PendingApproval f) (PreApproved f) v.
End StatusFave.

Module Follow.
Record t : Type := mk {
  ID : string;
  AccountID : string;
  Account : option Account.t;
  TargetAccountID : string;
  ShowReblogs : option bool;
  Notify : option bool
}.
Definition set_Account (f : t) (v : option Account.t) : t :=
  mk (ID f) (AccountID f) v (TargetAccountID f) (ShowReblogs f) (Notify f).
End Follow.

Module AccountFollowRequest.
Record t : Type := mk {
  ID : string;
  Reblogs : option bool;
  Notify : option bool
}.
End AccountFollowRequest.

Inductive InteractionType : Type :=
| InteractionLike
| InteractionReply
| InteractionAnnounce.

Module InteractionApproval.
Record t : Type := mk {
  ID : string;
  AccountID : string;
  Account : option Account.t;
  InteractingAccountID : string;
  InteractingAccount : option Account.t;
  InteractionURI : string;
  InteractionType : InteractionType;
  URI : string
}.
End InteractionApproval.

(** ** Calls to the collaborators, and their results *)

Inductive Call : Type :=
| MediaDelete (id : string)
| MediaUnattach (account : option Account.t) (id : string)
| DeleteMentionByID (id : string)
| DeleteNotificationsForStatus (statusID : string)
| DeleteStatusBookmarksForStatus (statusID : string)
| DeleteStatusFavesForStatus (statusID : string)
| DeletePollByID (pollID : string)
| DeletePollVotes (pollID : string)
| SchedulerCancel (pollID : string)
| GetStatusBoosts (statusID : string)
| DeleteStatusFromTimelines (statusID : string)
| DeleteStatusByID (statusID : string)
| DeleteStatusFromConversations (statusID : string)
| GetAccountLocalFollowers (accountID : string)
| GetAccountByID (accountID : string)
| FollowCreate (account : option Account.t) (form : AccountFollowRequest.t)
| FollowRemove (account : option Account.t) (targetAccountID : string)
| Lock (key : string)
| Unlock (key : string)
| PopulateAccountStats (account : Account.t)
| UpdateAccountStats (stats : AccountStats.t) (columns : list string)
| NewULID
| PutInteractionApproval (approval : InteractionApproval.t)
| UpdateStatusFave (fave : StatusFave.t) (columns : list string)
| UpdateStatus (status : Status.t) (columns : list string).

(** What a call gave back.  A Go call returning [(v, err)] gives either the
    value or the error ([v] is the zero value, an empty slice or a nil
    pointer, beside a non-nil [err]). *)
Inductive Outcome : Type :=
| RetErr (err : option error)
| RetBool (ok : bool)
| RetStatuses (r : error + list Status.t)
| RetFollows (r : error + list Follow.t)
| RetAccount (r : error + Account.t)
| RetStats (r : error + AccountStats.t)
| RetString (s : string)
| RetUnit.

Definition Event : Type := (Call * Outcome)%type.

(** The error a call returned, if it returned one. *)
Definition cause (o : Outcome) : option error :=
  match o with
  | RetErr err => err
  | RetStatuses (inl e) | RetFollows (inl e) | RetAccount (inl e) | RetStats (inl e) => Some e
  | _ => None
  end.


Definition is_SchedulerCancel (c : Call) : bool :=
  match c with SchedulerCancel _ => true | _ => false end.

(** ** The monad of the embedding: world passing, a trace of calls, and
       Go's panic on a nil dereference *)

Inductive Res (A : Type) : Type :=
| Ok (a : A)
| Panic.
Arguments Ok {A} a.
Arguments Panic {A}.

Definition M (W A : Type) : Type := W -> Res A * W * list Event.

Definition ret {W A} (a : A) : M W A := fun w => (Ok a, w, []).

Definition bind {W A B} (m : M W A) (k : A -> M W B) : M W B :=
  fun w =>
    match m w with
    | (Ok a, w1, t1) => let '(r, w2, t2) := k a w1 in (r, w2, t1 ++ t2)
    | (Panic, w1, t1) => (Panic, w1, t1)
    end.

Definition panic {W A} : M W A := fun w => (Panic, w, []).

(** A call [c] to a collaborator [f], recorded with its result. *)
Definition call {W A} (c : Call) (o : A -> Outcome) (f : W -> A * W) : M W A :=
  fun w => let '(a, w') := f w in (Ok a, w', [(c, o a)]).

(** An event with no effect on the world (taking or releasing a lock). *)
Definition emit {W} (c : Call) : M W unit := fun w => (Ok tt, w, [(c, RetUnit)]).

(** [p.field] through a pointer [p] that may be nil. *)
Definition deref {W A} (p : option A) : M W A :=
  match p with
  | Some a => ret a
  | None => panic
  end.

Declare Scope go_scope.
Delimit Scope go_scope with go.
Notation "x <- m ;; k" := (bind m (fun x => k))
  (at level 100, m at next level, right associativity) : go_scope.
Notation "m ;; k" := (bind m (fun _ => k))
  (at level 100, right associativity) : go_scope.
Local Open Scope go_scope.

(** [for _, x := range l { s = body(x, s) }] *)
Fixpoint for_range {W A S} (l : list A) (s : S) (body : A -> S -> M W S) : M W S :=
  match l with
  | [] => ret s
  | x :: l' => s' <- body x s ;; for_range l' s' body
  end.

(** [for _, x := range l { ... }] whose body may [return r] from the
    function ([Some r]) or fall through to the next element ([None]). *)
Fixpoint for_range_return {W A R} (l : list A) (body : A -> M W (option R)) : M W (option R) :=
  match l with
  | [] => ret None
  | x :: l' =>
      r <- body x ;;
      match r with
      | Some v => ret (Some v)
      | None => for_range_return l' body
      end
  end.

(** ** The collaborators of [utils] *)

Record utils (W : Type) : Type := {
  (* u.media *)
  media_Delete : string -> W -> option error * W;
  media_Unattach : option Account.t -> string -> W -> option error * W;
  (* u.state.DB *)
  DB_DeleteMentionByID : string -> W -> option error * W;
  DB_DeleteNotificationsForStatus : string -> W -> option error * W;
  DB_DeleteStatusBookmarksForStatus : string -> W -> option error * W;
  DB_DeleteStatusFavesForStatus : string -> W -> option error * W;
  DB_DeletePollByID : string -> W -> option error * W;
  DB_DeletePollVotes : string -> W -> option error * W;
  DB_GetStatusBoosts : string -> W -> (error + list Status.t) * W;
  DB_DeleteStatusByID : string -> W -> option error * W;
  DB_DeleteStatusFromConversations : string -> W -> option error * W;
  DB_GetAccountLocalFollowers : string -> W -> (error + list Follow.t) * W;
  DB_GetAccountByID : string -> W -> (error + Account.t) * W;
  DB_PopulateAccountStats : Account.t -> W -> (error + AccountStats.t) * W;
  DB_UpdateAccountStats : AccountStats.t -> list string -> W -> option error * W;
  DB_PutInteractionApproval : InteractionApproval.t -> W -> option error * W;
  DB_UpdateStatusFave : StatusFave.t -> list string -> W -> option error * W;
  DB_UpdateStatus : Status.t -> list string -> W -> option error * W;
  (* u.state.Workers.Scheduler *)
  Scheduler_Cancel : string -> W -> bool * W;
  (* u.surface *)
  surface_deleteStatusFromTimelines : string -> W -> option error * W;
  (* u.account *)
  account_FollowCreate : option Account.t -> AccountFollowRequest.t -> W -> option error * W;
  account_FollowRemove : option Account.t -> string -> W -> option error * W;
  (* id.NewULID and uris.GenerateURIForAccept *)
  id_NewULID : W -> string * W;
  uris_GenerateURIForAccept : string -> string -> string
}.
Arguments media_Delete {W}.
Arguments media_Unattach {W}.
Arguments DB_DeleteMentionByID {W}.
Arguments DB_DeleteNotificationsForStatus {W}.
Arguments DB_DeleteStatusBookmarksForStatus {W}.
Arguments DB_DeleteStatusFavesForStatus {W}.
Arguments DB_DeletePollByID {W}.
Arguments DB_DeletePollVotes {W}.
Arguments DB_GetStatusBoosts {W}.
Arguments DB_DeleteStatusByID {W}.
Arguments DB_DeleteStatusFromConversations {W}.
Arguments DB_GetAccountLocalFollowers {W}.
Arguments DB_GetAccountByID {W}.
Arguments DB_PopulateAccountStats {W}.
Arguments DB_UpdateAccountStats {W}.
Arguments DB_PutInteractionApproval {W}.
Arguments DB_UpdateStatusFave {W}.
Arguments DB_UpdateStatus {W}.
Arguments Scheduler_Cancel {W}.
Arguments surface_deleteStatusFromTimelines {W}.
Arguments account_FollowCreate {W}.
Arguments account_FollowRemove {W}.
Arguments id_NewULID {W}.
Arguments uris_GenerateURIForAccept {W}.

(** [if err != nil { errs.Appendf("<annotation>%w", err) }] *)
Definition appendIfErr (errs : MultiError) (annotation : string) (err : option error) : MultiError :=
  match err with
  | Some e => Appendf errs annotation e
  | None => errs
  end.

(** ** wipeStatus *)

Definition wipeStatus {W} (u : utils W)
  (statusToDelete : Status.t) (deleteAttachments : bool) : M W (option error) :=
  let errs : MultiError := [] in
  errs <-
    (if deleteAttachments then
       for_range (Status.AttachmentIDs statusToDelete) errs (fun id errs =>
         err <- call (MediaDelete id) RetErr (media_Delete u id) ;;
         ret (appendIfErr errs "error deleting media: " err))
     else
       for_range (Status.AttachmentIDs statusToDelete) errs (fun id errs =>
         err <- call (MediaUnattach (Status.Account statusToDelete) id) RetErr
                  (media_Unattach u (Status.Account statusToDelete) id) ;;
         ret (appendIfErr errs "error unattaching media: " err))) ;;
  errs <-
    for_range (Status.MentionIDs statusToDelete) errs (fun id errs =>
      err <- call (DeleteMentionByID id) RetErr (DB_DeleteMentionByID u id) ;;
      ret (appendIfErr errs "error deleting status mention: " err)) ;;
  err <- call (DeleteNotificationsForStatus (Status.ID statusToDelete)) RetErr
           (DB_DeleteNotificationsForStatus u (Status.ID statusToDelete)) ;;
  let errs := appendIfErr errs "error deleting status notifications: " err in
  err <- call (DeleteStatusBookmarksForStatus (Status.ID statusToDelete)) RetErr
           (DB_DeleteStatusBookmarksForStatus u (Status.ID statusToDelete)) ;;
  let errs := appendIfErr errs "error deleting status bookmarks: " err in
  err <- call (DeleteStatusFavesForStatus (Status.ID statusToDelete)) RetErr
           (DB_DeleteStatusFavesForStatus u (Status.ID statusToDelete)) ;;
  let errs := appendIfErr errs "error deleting status faves: " err in
  errs <-
    (let pollID := Status.PollID statusToDelete in
     if negb (pollID =? "")%string then
       err <- call (DeletePollByID pollID) RetErr (DB_DeletePollByID u pollID) ;;
       let errs := appendIfErr errs "error deleting status poll: " err in
       err <- call (DeletePollVotes pollID) RetErr (DB_DeletePollVotes u pollID) ;;
       let errs := appendIfErr errs "error deleting status poll votes: " err in
       _ <- call (SchedulerCancel pollID) RetBool (Scheduler_Cancel u pollID) ;;
       ret errs
     else ret errs) ;;
  r <- call (GetStatusBoosts (Status.ID statusToDelete)) RetStatuses
         (DB_GetStatusBoosts u (Status.ID statusToDelete)) ;;
  let '(boosts, errs) :=
    match r with
    | inl err => ([], Appendf errs "error fetching status boosts: " err)
    | inr boosts => (boosts, errs)
    end in
  errs <-
    for_range boosts errs (fun boost errs =>
      err <- call (DeleteStatusFromTimelines (Status.ID boost)) RetErr
               (surface_deleteStatusFromTimelines u (Status.ID boost)) ;;
      let errs := appendIfErr errs "error deleting boost from timelines: " err in
      err <- call (DeleteStatusByID (Status.ID boost)) RetErr
               (DB_DeleteStatusByID u (Status.ID boost)) ;;
      ret (appendIfErr errs "error deleting boost: " err)) ;;
  err <- call (DeleteStatusFromTimelines (Status.ID statusToDelete)) RetErr
           (surface_deleteStatusFromTimelines u (Status.ID statusToDelete)) ;;
  let errs := appendIfErr errs "error deleting status from timelines: " err in
  err <- call (DeleteStatusFromConversations (Status.ID statusToDelete)) RetErr
           (DB_DeleteStatusFromConversations u (Status.ID statusToDelete)) ;;
  let errs := appendIfErr errs "error deleting status from conversations: " err in
  err <- call (DeleteStatusByID (Status.ID statusToDelete)) RetErr
           (DB_DeleteStatusByID u (Status.ID statusToDelete)) ;;
  let errs := appendIfErr errs "error deleting status: " err in
  ret (Combine errs).

(** ** redirectFollowers

    The calls to [log.Errorf] before each [return false] write to the log
    only and are left out. *)

(** The body of the loop over the followers: [Some b] when the iteration
    ends in [return b], [None] when it falls through to the next follower. *)
Definition redirectFollower {W} (u : utils W)
  (targetAcct : Account.t) (follow : Follow.t) : M W (option bool) :=
  r <- call (GetAccountByID (Follow.AccountID follow)) RetAccount
         (DB_GetAccountByID u (Follow.AccountID follow)) ;;
  match r with
  | inl _ => ret (Some false)
  | inr account =>
      let follow := Follow.set_Account follow (Some account) in
      r <-
        (if negb (Follow.AccountID follow =? Account.ID targetAcct)%string then
           let form :=
             AccountFollowRequest.mk (Account.ID targetAcct)
               (Follow.ShowReblogs follow) (Follow.Notify follow) in
           err <- call (FollowCreate (Follow.Account follow) form) RetErr
                    (account_FollowCreate u (Follow.Account follow) form) ;;
           match err with
           | Some _ => ret (Some false)
           | None => ret None
           end
         else ret None) ;;
      match r with
      | Some b => ret (Some b)
      | None =>
          err <- call (FollowRemove (Follow.Account follow) (Follow.TargetAccountID follow))
                   RetErr
                   (account_FollowRemove u (Follow.Account follow)
                      (Follow.TargetAccountID follow)) ;;
          match err with
          | Some _ => ret (Some false)
          | None => ret None
          end
      end
  end.

Definition redirectFollowers {W} (u : utils W)
  (originAcct targetAcct : Account.t) : M W bool :=
  r <- call (GetAccountLocalFollowers (Account.ID originAcct)) RetFollows
         (DB_GetAccountLocalFollowers u (Account.ID originAcct)) ;;
  let '(followers, err) :=
    match r with
    | inl err => ([], Some err)
    | inr followers => (followers, None)
    end in
  if match err with
     | Some err => negb (errors_Is_ErrNoEntries err)
     | None => false
     end
  then ret false
  else
    r <- for_range_return followers (redirectFollower u targetAcct) ;;
    match r with
    | Some b => ret b
    | None => ret true
    end.

(** ** The account counters

    [unlock := u.state.ProcessingLocks.Lock(key); defer unlock()]: the lock
    is taken on entry and released when the function returns.  Each
    function returns the account as it has left it in memory, and its
    error. *)

Definition locked {W A} (key : string) (body : M W A) : M W A :=
  emit (Lock key) ;;
  a <- body ;;
  emit (Unlock key) ;;
  ret a.

Definition wrapErr (annotation : string) (err : option error) : option error :=
  match err with
  | Some e => Some (Wrapf annotation e)
  | None => None
  end.

Definition incrementStatusesCount {W} (u : utils W)
  (account : Account.t) (status : Status.t) : M W (Account.t * option error) :=
  locked (Account.URI account)
    (r <- call (PopulateAccountStats account) RetStats (DB_PopulateAccountStats u account) ;;
     match r with
     | inl err => ret (account, Some (Wrapf "db error getting account stats: " err))
     | inr stats =>
         let stats :=
           AccountStats.set_StatusesCount stats
             (wrapInt (AccountStats.StatusesCount stats + 1)) in
         let stats := AccountStats.set_LastStatusAt stats (Status.CreatedAt status) in
         let columns := ["statuses_count"; "last_status_at"] in
         err <- call (UpdateAccountStats stats columns) RetErr
                  (DB_UpdateAccountStats u stats columns) ;;
         ret (Account.set_Stats account (Some stats),
              wrapErr "db error updating account stats: " err)
     end).

Definition decrementStatusesCount {W} (u : utils W)
  (account : Account.t) : M W (Account.t * option error) :=
  locked (Account.URI account)
    (r <- call (PopulateAccountStats account) RetStats (DB_PopulateAccountStats u account) ;;
     match r with
     | inl err => ret (account, Some (Wrapf "db error getting account stats: " err))
     | inr stats =>
         let stats :=
           AccountStats.set_StatusesCount stats
             (wrapInt (AccountStats.StatusesCount stats - 1)) in
         let stats :=
           if AccountStats.StatusesCount stats <? 0
           then AccountStats.set_StatusesCount stats 0
           else stats in
         let columns := ["statuses_count"] in
         err <- call (UpdateAccountStats stats columns) RetErr
                  (DB_UpdateAccountStats u stats columns) ;;
         ret (Account.set_Stats account (Some stats),
              wrapErr "db error updating account stats: " err)
     end).

Definition incrementFollowersCount {W} (u : utils W)
  (account : Account.t) : M W (Account.t * option error) :=
  locked (Account.URI account)
    (r <- call (PopulateAccountStats account) RetStats (DB_PopulateAccountStats u account) ;;
     match r with
     | inl err => ret (account, Some (Wrapf "db error getting account stats: " err))
     | inr stats =>
         let stats :=
           AccountStats.set_FollowersCount stats
             (wrapInt (AccountStats.FollowersCount stats + 1)) in
         let columns := ["followers_count"] in
         err <- call (UpdateAccountStats stats columns) RetErr
                  (DB_UpdateAccountStats u stats columns) ;;
         ret (Account.set_Stats account (Some stats),
              wrapErr "db error updating account stats: " err)
     end).

Definition decrementFollowersCount {W} (u : utils W)
  (account : Account.t) : M W (Account.t * option error) :=
  locked (Account.URI account)
    (r <- call (PopulateAccountStats account) RetStats (DB_PopulateAccountStats u account) ;;
     match r with
     | inl err => ret (account, Some (Wrapf "db error getting account stats: " err))
     | inr stats =>
         let stats :=
           AccountStats.set_FollowersCount stats
             (wrapInt (AccountStats.FollowersCount stats - 1)) in
         let stats :=
           if AccountStats.FollowersCount stats <? 0
           then AccountStats.set_FollowersCount stats 0
           else stats in
         let columns := ["followers_count"] in
         err <- call (UpdateAccountStats stats columns) RetErr
                  (DB_UpdateAccountStats u stats columns) ;;
         ret (Account.set_Stats account (Some stats),
              wrapErr "db error updating account stats: " err)
     end).

Definition incrementFollowingCount {W} (u : utils W)
  (account : Account.t) : M W (Account.t * option error) :=
  locked (Account.URI account)
    (r <- call (PopulateAccountStats account) RetStats (DB_PopulateAccountStats u account) ;;
     match r with
     | inl err => ret (account, Some (Wrapf "db error getting account stats: " err))
     | inr stats =>
         let stats :=
           AccountStats.set_FollowingCount stats
             (wrapInt (AccountStats.FollowingCount stats + 1)) in
         let columns := ["following_count"] in
         err <- call (UpdateAccountStats stats columns) RetErr
                  (DB_UpdateAccountStats u stats columns) ;;
         ret (Account.set_Stats account (Some stats),
              wrapErr "db error updating account stats: " err)
     end).

Definition decrementFollowingCount {W} (u : utils W)
  (account : Account.t) : M W (Account.t * option error) :=
  locked (Account.URI account)
    (r <- call (PopulateAccountStats account) RetStats (DB_PopulateAccountStats u account) ;;
     match r with
     | inl err => ret (account, Some (Wrapf "db error getting account stats: " err))
     | inr stats =>
         let stats :=
           AccountStats.set_FollowingCount stats
             (wrapInt (AccountStats.FollowingCount stats - 1)) in
         let stats :=
           if AccountStats.FollowingCount stats <? 0
           then AccountStats.set_FollowingCount stats 0
           else stats in
         let columns := ["following_count"] in
         err <- call (UpdateAccountStats stats columns) RetErr
                  (DB_UpdateAccountStats u stats columns) ;;
         ret (Account.set_Stats account (Some stats),
              wrapErr "db error updating account stats: " err)
     end).

Definition incrementFollowRequestsCount {W} (u : utils W)
  (account : Account.t) : M W (Account.t * option error) :=
  locked (Account.URI account)
    (r <- call (PopulateAccountStats account) RetStats (DB_PopulateAccountStats u account) ;;
     match r with
     | inl err => ret (account, Some (Wrapf "db error getting account stats: " err))
     | inr stats =>
         let stats :=
           AccountStats.set_FollowRequestsCount stats
             (wrapInt (AccountStats.FollowRequestsCount stats + 1)) in
         let columns := ["follow_requests_count"] in
         err <- call (UpdateAccountStats stats columns) RetErr
                  (DB_UpdateAccountStats u stats columns) ;;
         ret (Account.set_Stats account (Some stats),
              wrapErr "db error updating account stats: " err)
     end).

Definition decrementFollowRequestsCount {W} (u : utils W)
  (account : Account.t) : M W (Account.t * option error) :=
  locked (Account.URI account)
    (r <- call (PopulateAccountStats account) RetStats (DB_PopulateAccountStats u account) ;;
     match r with
     | inl err => ret (account, Some (Wrapf "db error getting account stats: " err))
     | inr stats =>
         let stats :=
           AccountStats.set_FollowRequestsCount stats
             (wrapInt (AccountStats.FollowRequestsCount stats - 1)) in
         let stats :=
           if AccountStats.FollowRequestsCount stats <? 0
           then AccountStats.set_FollowRequestsCount stats 0
           else stats in
         let columns := ["follow_requests_count"] in
         err <- call (UpdateAccountStats stats columns) RetErr
                  (DB_UpdateAccountStats u stats columns) ;;
         ret (Account.set_Stats account (Some stats),
              wrapErr "db error updating account stats: " err)
     end).

(** ** The interaction approvals

    Each function returns the subject as it has left it in memory, and
    either the error or the approval. *)

Definition approveFave {W} (u : utils W)
  (fave : StatusFave.t) : M W (StatusFave.t * (error + InteractionApproval.t)) :=
  id <- call NewULID RetString (id_NewULID u) ;;
  targetAccount <- deref (StatusFave.TargetAccount fave) ;;
  let approval :=
    InteractionApproval.mk
      id
      (StatusFave.TargetAccountID fave)
      (StatusFave.TargetAccount fave)
      (StatusFave.AccountID fave)
      (StatusFave.Account fave)
      (StatusFave.URI fave)
      InteractionLike
      (uris_GenerateURIForAccept u (Account.Username targetAccount) id) in
  err <- call (PutInteractionApproval approval) RetErr (DB_PutInteractionApproval u approval) ;;
  match err with
  | Some err => ret (fave, inl (Wrapf "db error inserting interaction approval: " err))
  | None =>
      let fave := StatusFave.set_PendingApproval fave (Some false) in
      let fave := StatusFave.set_PreApproved fave false in
      let fave := StatusFave.set_ApprovedByURI fave (InteractionApproval.URI approval) in
      let columns := ["pending_approval"; "approved_by_uri"] in
      err <- call (UpdateStatusFave fave columns) RetErr (DB_UpdateStatusFave u fave columns) ;;
      match err with
      | Some err => ret (fave, inl (Wrapf "db error updating status fave: " err))
      | None => ret (fave, inr approval)
      end
  end.

Definition approveReply {W} (u : utils W)
  (status : Status.t) : M W (Status.t * (error + InteractionApproval.t)) :=
  id <- call NewULID RetString (id_NewULID u) ;;
  inReplyToAccount <- deref (Status.InReplyToAccount status) ;;
  let approval :=
    InteractionApproval.mk
      id
      (Status.InReplyToAccountID status)
      (Status.InReplyToAccount status)
      (Status.AccountID status)
      (Status.Account status)
      (Status.URI status)
      InteractionReply
      (uris_GenerateURIForAccept u (Account.Username inReplyToAccount) id) in
  err <- call (PutInteractionApproval approval) RetErr (DB_PutInteractionApproval u approval) ;;
  match err with
  | Some err => ret (status, inl (Wrapf "db error inserting interaction approval: " err))
  | None =>
      let status := Status.set_PendingApproval status (Some false) in
      let status := Status.set_PreApproved status false in
      let status := Status.set_ApprovedByURI status (InteractionApproval.URI approval) in
      let columns := ["pending_approval"; "approved_by_uri"] in
      err <- call (UpdateStatus status columns) RetErr (DB_UpdateStatus u status columns) ;;
      match err with
      | Some err => ret (status, inl (Wrapf "db error updating status: " err))
      | None => ret (status, inr approval)
      end
  end.

Definition approveAnnounce {W} (u : utils W)
  (boost : Status.t) : M W (Status.t * (error + InteractionApproval.t)) :=
  id <- call NewULID RetString (id_NewULID u) ;;
  boostOfAccount <- deref (Status.BoostOfAccount boost) ;;
  let approval :=
    InteractionApproval.mk
      id
      (Status.BoostOfAccountID boost)
      (Status.BoostOfAccount boost)
      (Status.AccountID boost)
      (Status.Account boost)
      (Status.URI boost)
      InteractionReply
      (uris_GenerateURIForAccept u (Account.Username boostOfAccount) id) in
  err <- call (PutInteractionApproval approval) RetErr (DB_PutInteractionApproval u approval) ;;
  match err with
  | Some err => ret (boost, inl (Wrapf "db error inserting interaction approval: " err))
  | None =>
      let boost := Status.set_PendingApproval boost (Some false) in
      let boost := Status.set_PreApproved boost false in
      let boost := Status.set_ApprovedByURI boost (InteractionApproval.URI approval) in
      let columns := ["pending_approval"; "approved_by_uri"] in
      err <- call (UpdateStatus boost columns) RetErr (DB_UpdateStatus u boost columns) ;;
      match err with
      | Some err => ret (boost, inl (Wrapf "db error updating boost wrapper status: " err))
      | None => ret (boost, inr approval)
      end
  end.

(** ** Reading a trace *)

(** The calls a run attempted, in order. *)
Definition calls (tr : list Event) : list Call := map fst tr.




(** The calls of the cascade for a status, given the boosts the store
    returned. *)
Definition attachment_calls (s : Status.t) (deleteAttachments : bool) : list Call :=
  map (fun id => if deleteAttachments then MediaDelete id else MediaUnattach (Status.Account s) id)
    (Status.AttachmentIDs s).

Definition poll_calls (s : Status.t) : list Call :=
  if (Status.PollID s =? "")%string then []
  else [DeletePollByID (Status.PollID s); DeletePollVotes (Status.PollID s);
        SchedulerCancel (Status.PollID s)].

Definition boost_calls (boosts : list Status.t) : list Call :=
  flat_map (fun b => [DeleteStatusFromTimelines (Status.ID b); DeleteStatusByID (Status.ID b)])
    boosts.

Definition cascade_calls (s : Status.t) (deleteAttachments : bool) (boosts : list Status.t)
  : list Call :=
  attachment_calls s deleteAttachments
  ++ map DeleteMentionByID (Status.MentionIDs s)
  ++ [DeleteNotificationsForStatus (Status.ID s);
      DeleteStatusBookmarksForStatus (Status.ID s);
      DeleteStatusFavesForStatus (Status.ID s)]
  ++ poll_calls s
  ++ [GetStatusBoosts (Status.ID s)]
  ++ boost_calls boosts
  ++ [DeleteStatusFromTimelines (Status.ID s);
      DeleteStatusFromConversations (Status.ID s);
      DeleteStatusByID (Status.ID s)].



(** ** Runs that end without a panic *)





(** ** A store for the examples

    Every call succeeds unless [failing] gives it an error.  The world is
    the supply of identifiers [id.NewULID] hands out; the boosts and the
    followers the store holds are fixed. *)

Definition zeroStats (accountID : string) : AccountStats.t :=
  AccountStats.mk accountID 0 0 0 0 0.

Definition lookup {A} (failing : Call -> option error) (c : Call) (a : A) : error + A :=
  match failing c with
  | Some e => inl e
  | None => inr a
  end.

Definition fake (failing : Call -> option error)
  (boosts : list Status.t) (followers : list Follow.t) : utils (list string) := {|
  media_Delete := fun id w => (failing (MediaDelete id), w);
  media_Unattach := fun a id w => (failing (MediaUnattach a id), w);
  DB_DeleteMentionByID := fun id w => (failing (DeleteMentionByID id), w);
  DB_DeleteNotificationsForStatus := fun id w => (failing (DeleteNotificationsForStatus id), w);
  DB_DeleteStatusBookmarksForStatus :=
    fun id w => (failing (DeleteStatusBookmarksForStatus id), w);
  DB_DeleteStatusFavesForStatus := fun id w => (failing (DeleteStatusFavesForStatus id), w);
  DB_DeletePollByID := fun id w => (failing (DeletePollByID id), w);
  DB_DeletePollVotes := fun id w => (failing (DeletePollVotes id), w);
  DB_GetStatusBoosts := fun id w => (lookup failing (GetStatusBoosts id) boosts, w);
  DB_DeleteStatusByID := fun id w => (failing (DeleteStatusByID id), w);
  DB_DeleteStatusFromConversations :=
    fun id w => (failing (DeleteStatusFromConversations id), w);
  DB_GetAccountLocalFollowers :=
    fun id w => (lookup failing (GetAccountLocalFollowers id) followers, w);
  DB_GetAccountByID :=
    fun id w => (lookup failing (GetAccountByID id) (Account.mk id id id None), w);
  DB_PopulateAccountStats :=
    fun a w =>
      (lookup failing (PopulateAccountStats a)
         match Account.Stats a with
         | Some s => s
         | None => zeroStats (Account.ID a)
         end, w);
  DB_UpdateAccountStats := fun s columns w => (failing (UpdateAccountStats s columns), w);
  DB_PutInteractionApproval := fun a w => (failing (PutInteractionApproval a), w);
  DB_UpdateStatusFave := fun f columns w => (failing (UpdateStatusFave f columns), w);
  DB_UpdateStatus := fun s columns w => (failing (UpdateStatus s columns), w);
  Scheduler_Cancel :=
    fun id w => (match failing (SchedulerCancel id) with Some _ => false | None => true end, w);
  surface_deleteStatusFromTimelines := fun id w => (failing (DeleteStatusFromTimelines id), w);
  account_FollowCreate := fun a form w => (failing (FollowCreate a form), w);
  account_FollowRemove := fun a id w => (failing (FollowRemove a id), w);
  id_NewULID := fun w => match w with id :: w' => (id, w') | [] => ("", []) end;
  uris_GenerateURIForAccept :=
    fun username id => String.append username (String.append "/accepts/" id)
|}.

Definition never : Call -> option error := fun _ => None.

(** A status with two attachments, a mention and a poll. *)
Definition status1 : Status.t :=
  Status.mk "S1" "https://example.org/statuses/S1" 100 "A1" None
    ["M1"; "M2"] ["N1"] "P1" "" None "" None None false "".

(** ** Reading a trace of [redirectFollowers] *)

(** A failure on which [redirectFollowers] gives up: any error of a call,
    but "no entries" from the lookup of the followers. *)
Definition fatal (ev : Event) : bool :=
  match cause (snd ev) with
  | Some e =>
      match fst ev with
      | GetAccountLocalFollowers _ => negb (errors_Is_ErrNoEntries e)
      | _ => true
      end
  | None => false
  end.

(** No call of the run failed fatally. *)
Definition clean (tr : list Event) : Prop := Forall (fun ev => fatal ev = false) tr.

(** The run ends with its first fatal failure: nothing is called after it. *)
Definition aborted (tr : list Event) : Prop :=
  exists pre ev, tr = pre ++ [ev] /\ clean pre /\ fatal ev = true.

(** The follows a lookup gave: none beside an error. *)
Definition follows_of (r : error + list Follow.t) : list Follow.t :=
  match r with
  | inl _ => []
  | inr l => l
  end.

(** The calls that redirect one follower whose account resolved to
    [account]. *)
Definition follower_calls (targetAcct : Account.t) (fa : Follow.t * Account.t) : list Call :=
  let '(follow, account) := fa in
  GetAccountByID (Follow.AccountID follow)
  :: (if (Follow.AccountID follow =? Account.ID targetAcct)%string then []
      else [FollowCreate (Some account)
              (AccountFollowRequest.mk (Account.ID targetAcct)
                 (Follow.ShowReblogs follow) (Follow.Notify follow))])
  ++ [FollowRemove (Some account) (Follow.TargetAccountID follow)].

(** Every follow creation of the run comes right after the resolution of a
    follower that is not the target. *)
Definition creates_for_others_only (targetAcct : Account.t) (tr : list Event) : Prop :=
  forall pre account form o post,
    tr = pre ++ (FollowCreate account form, o) :: post ->
    exists pre' id r, pre = pre' ++ [(GetAccountByID id, r)] /\ id <> Account.ID targetAcct.

(** Every resolution of a follower that is the target is followed at once
    by the removal of that follower's follow. *)
Definition retracts_target (targetAcct : Account.t) (followers : list Follow.t)
  (tr : list Event) : Prop :=
  forall pre account post,
    tr = pre ++ (GetAccountByID (Account.ID targetAcct), RetAccount (inr account)) :: post ->
    exists follow o post',
      In follow followers /\
      Follow.AccountID follow = Account.ID targetAcct /\
      post = (FollowRemove (Some account) (Follow.TargetAccountID follow), RetErr o) :: post'.

(** Two accounts and two follows of the first: one by a third account, one
    by the second account itself. *)
Definition accountA : Account.t := Account.mk "A" "https://example.org/users/a" "a" None.
Definition accountB : Account.t := Account.mk "B" "https://example.org/users/b" "b" None.
Definition followCA : Follow.t := Follow.mk "F1" "C" None "A" (Some true) (Some false).
Definition followBA : Follow.t := Follow.mk "F2" "B" None "A" None None.

(** ** The counter operations, by name *)

Inductive Counter : Type :=
| Statuses
| Followers
| Following
| FollowRequests.

Definition counter (c : Counter) (s : AccountStats.t) : Z :=
  match c with
  | Statuses => AccountStats.StatusesCount s
  | Followers => AccountStats.FollowersCount s
  | Following => AccountStats.FollowingCount s
  | FollowRequests => AccountStats.FollowRequestsCount s
  end.

Definition decrement {W} (u : utils W) (c : Counter)
  : Account.t -> M W (Account.t * option error) :=
  match c with
  | Statuses => decrementStatusesCount u
  | Followers => decrementFollowersCount u
  | Following => decrementFollowingCount u
  | FollowRequests => decrementFollowRequestsCount u
  end.

(** [n] calls of a decrement on one account, whatever each call returns. *)
Fixpoint decrements {W} (u : utils W) (c : Counter) (n : nat) (account : Account.t)
  : M W Account.t :=
  match n with
  | O => ret account
  | S n' => r <- decrement u c account ;; decrements u c n' (fst r)
  end.

Inductive CounterOp : Type :=
| IncrementStatuses (status : Status.t)
| DecrementStatuses
| IncrementFollowers
| DecrementFollowers
| IncrementFollowing
| DecrementFollowing
| IncrementFollowRequests
| DecrementFollowRequests.

Definition run_op {W} (u : utils W) (op : CounterOp)
  : Account.t -> M W (Account.t * option error) :=
  match op with
  | IncrementStatuses status => fun account => incrementStatusesCount u account status
  | DecrementStatuses => decrementStatusesCount u
  | IncrementFollowers => incrementFollowersCount u
  | DecrementFollowers => decrementFollowersCount u
  | IncrementFollowing => incrementFollowingCount u
  | DecrementFollowing => decrementFollowingCount u
  | IncrementFollowRequests => incrementFollowRequestsCount u
  | DecrementFollowRequests => decrementFollowRequestsCount u
  end.

(** The fields of the stats record, and the column of each. *)
Inductive StatsField : Type :=
| FAccountID
| FFollowersCount
| FFollowingCount
| FFollowRequestsCount
| FStatusesCount
| FLastStatusAt.

Definition stats_column (f : StatsField) : string :=
  match f with
  | FAccountID => "account_id"
  | FFollowersCount => "followers_count"
  | FFollowingCount => "following_count"
  | FFollowRequestsCount => "follow_requests_count"
  | FStatusesCount => "statuses_count"
  | FLastStatusAt => "last_status_at"
  end.

(** Two stats records hold the same value in field [f]. *)
Definition stats_same (f : StatsField) (a b : AccountStats.t) : Prop :=
  match f with
  | FAccountID => AccountStats.AccountID a = AccountStats.AccountID b
  | FFollowersCount => AccountStats.FollowersCount a = AccountStats.FollowersCount b
  | FFollowingCount => AccountStats.FollowingCount a = AccountStats.FollowingCount b
  | FFollowRequestsCount =>
      AccountStats.FollowRequestsCount a = AccountStats.FollowRequestsCount b
  | FStatusesCount => AccountStats.StatusesCount a = AccountStats.StatusesCount b
  | FLastStatusAt => AccountStats.LastStatusAt a = AccountStats.LastStatusAt b
  end.

(** The fields each operation is named for. *)
Definition touched (op : CounterOp) : list StatsField :=
  match op with
  | IncrementStatuses _ => [FStatusesCount; FLastStatusAt]
  | DecrementStatuses => [FStatusesCount]
  | IncrementFollowers | DecrementFollowers => [FFollowersCount]
  | IncrementFollowing | DecrementFollowing => [FFollowingCount]
  | IncrementFollowRequests | DecrementFollowRequests => [FFollowRequestsCount]
  end.

(** The values an operation leaves in the fields it is named for, from the
    stats [s0] it started from. *)
Definition touched_values (op : CounterOp) (s0 s1 : AccountStats.t) : Prop :=
  match op with
  | IncrementStatuses status =>
      AccountStats.StatusesCount s1 = wrapInt (AccountStats.StatusesCount s0 + 1) /\
      AccountStats.LastStatusAt s1 = Status.CreatedAt status
  | DecrementStatuses =>
      AccountStats.StatusesCount s1 = Z.max 0 (wrapInt (AccountStats.StatusesCount s0 - 1))
  | IncrementFollowers =>
      AccountStats.FollowersCount s1 = wrapInt (AccountStats.FollowersCount s0 + 1)
  | DecrementFollowers =>
      AccountStats.FollowersCount s1 = Z.max 0 (wrapInt (AccountStats.FollowersCount s0 - 1))
  | IncrementFollowing =>
      AccountStats.FollowingCount s1 = wrapInt (AccountStats.FollowingCount s0 + 1)
  | DecrementFollowing =>
      AccountStats.FollowingCount s1 = Z.max 0 (wrapInt (AccountStats.FollowingCount s0 - 1))
  | IncrementFollowRequests =>
      AccountStats.FollowRequestsCount s1 = wrapInt (AccountStats.FollowRequestsCount s0 + 1)
  | DecrementFollowRequests =>
      AccountStats.FollowRequestsCount s1 =
        Z.max 0 (wrapInt (AccountStats.FollowRequestsCount s0 - 1))
  end.

(** The column of a counter. *)
Definition counter_column (c : Counter) : string :=
  match c with
  | Statuses => "statuses_count"
  | Followers => "followers_count"
  | Following => "following_count"
  | FollowRequests => "follow_requests_count"
  end.

(** Every value of counter [c] the run wrote to the store is non-negative. *)
Definition writes_nonneg (c : Counter) (tr : list Event) : Prop :=
  Forall (fun ev =>
            match fst ev with
            | UpdateAccountStats s _ => 0 <= counter c s
            | _ => True
            end) tr.

(** The value of counter [c] the account holds in memory is non-negative. *)
Definition holds_nonneg (c : Counter) (account : Account.t) : Prop :=
  match Account.Stats account with
  | Some s => 0 <= counter c s
  | None => True
  end.

(** An account whose statuses count is 1. *)
Definition accountOne : Account.t :=
  Account.mk "A" "https://example.org/users/a" "a" (Some (AccountStats.mk "A" 5 6 7 1 0)).

(** ** The fields of the approved subjects, and the column of each *)

Inductive FaveField : Type :=
| FaveID
| FaveURI
| FaveAccountID
| FaveAccount
| FaveTargetAccountID
| FaveTargetAccount
| FavePendingApproval
| FavePreApproved
| FaveApprovedByURI.

Definition fave_column (f : FaveField) : string :=
  match f with
  | FaveID => "id"
  | FaveURI => "uri"
  | FaveAccountID => "account_id"
  | FaveAccount => "account"
  | FaveTargetAccountID => "target_account_id"
  | FaveTargetAccount => "target_account"
  | FavePendingApproval => "pending_approval"
  | FavePreApproved => "pre_approved"
  | FaveApprovedByURI => "approved_by_uri"
  end.

Definition fave_same (f : FaveField) (a b : StatusFave.t) : Prop :=
  match f with
  | FaveID => StatusFave.ID a = StatusFave.ID b
  | FaveURI => StatusFave.URI a = StatusFave.URI b
  | FaveAccountID => StatusFave.AccountID a = StatusFave.AccountID b
  | FaveAccount => StatusFave.Account a = StatusFave.Account b
  | FaveTargetAccountID => StatusFave.TargetAccountID a = StatusFave.TargetAccountID b
  | FaveTargetAccount => StatusFave.TargetAccount a = StatusFave.TargetAccount b
  | FavePendingApproval => StatusFave.PendingApproval a = StatusFave.PendingApproval b
  | FavePreApproved => StatusFave.PreApproved a = StatusFave.PreApproved b
  | FaveApprovedByURI => StatusFave.ApprovedByURI a = StatusFave.ApprovedByURI b
  end.

(** Every field of the fave that changed is named in [columns]. *)
Definition fave_persists_what_changed (before after : StatusFave.t) (columns : list string)
  : Prop :=
  forall f, ~ fave_same f before after -> In (fave_column f) columns.

(** The subject of an approval once approved by [uri]: the pending flag
    cleared, the pre-approval flag cleared, the approving URI set. *)
Definition approved_fave (fave : StatusFave.t) (uri : string) : StatusFave.t :=
  StatusFave.mk (StatusFave.ID fave) (StatusFave.URI fave) (StatusFave.AccountID fave)
    (StatusFave.Account fave) (StatusFave.TargetAccountID fave) (StatusFave.TargetAccount fave)
    (Some false) false uri.

Definition approved_status (s : Status.t) (uri : string) : Status.t :=
  Status.mk (Status.ID s) (Status.URI s) (Status.CreatedAt s) (Status.AccountID s)
    (Status.Account s) (Status.AttachmentIDs s) (Status.MentionIDs s) (Status.PollID s)
    (Status.InReplyToAccountID s) (Status.InReplyToAccount s) (Status.BoostOfAccountID s)
    (Status.BoostOfAccount s) (Some false) false uri.

(** The columns the approvals persist. *)
Definition approval_columns : list string := ["pending_approval"; "approved_by_uri"].

(** No update of a fave, or of a status, is among the events. *)
Definition no_subject_update (tr : list Event) : Prop :=
  Forall (fun ev =>
            match fst ev with
            | UpdateStatusFave _ _ | UpdateStatus _ _ => False
            | _ => True
            end) tr.

(** A pending, pre-approved fave by account C of a status of account B; a
    pending reply and a pending boost by account C to a status of account
    B. *)
Definition fave1 : StatusFave.t :=
  StatusFave.mk "FV1" "https://example.org/users/c/liked/FV1" "C" None "B" (Some accountB)
    (Some true) true "".

Definition reply1 : Status.t :=
  Status.mk "RP1" "https://example.org/users/c/statuses/RP1" 150 "C" None [] [] ""
    "B" (Some accountB) "" None (Some true) false "".

Definition boost1 : Status.t :=
  Status.mk "BS1" "https://example.org/users/c/statuses/BS1" 200 "C" None [] [] ""
    "" None "B" (Some accountB) (Some true) false "".

(** ** Further readings of the traces *)


(** A call [redirectFollowers] may make for the followers [followers]. *)
Definition redirect_call (originAcct targetAcct : Account.t) (followers : list Follow.t)
  (c : Call) : Prop :=
  match c with
  | GetAccountLocalFollowers id => id = Account.ID originAcct
  | GetAccountByID id => exists follow, In follow followers /\ id = Follow.AccountID follow
  | FollowCreate account form =>
      exists follow,
        In follow followers /\
        Follow.AccountID follow <> Account.ID targetAcct /\
        account <> None /\
        form = AccountFollowRequest.mk (Account.ID targetAcct)
                 (Follow.ShowReblogs follow) (Follow.Notify follow)
  | FollowRemove account targetAccountID =>
      exists follow,
        In follow followers /\ account <> None /\
        targetAccountID = Follow.TargetAccountID follow
  | _ => False
  end.

(** [p] is a beginning of [l]. *)
Definition is_prefix {A} (p l : list A) : Prop := exists rest, l = p ++ rest.

(** The store hands back the stats an account already holds in memory. *)
Definition populates_from_memory {W} (u : utils W) : Prop :=
  forall account s w,
    Account.Stats account = Some s ->
    exists w', DB_PopulateAccountStats u account w = (inr s, w').

Definition increment_op (c : Counter) (status : Status.t) : CounterOp :=
  match c with
  | Statuses => IncrementStatuses status
  | Followers => IncrementFollowers
  | Following => IncrementFollowing
  | FollowRequests => IncrementFollowRequests
  end.

Definition decrement_op (c : Counter) : CounterOp :=
  match c with
  | Statuses => DecrementStatuses
  | Followers => DecrementFollowers
  | Following => DecrementFollowing
  | FollowRequests => DecrementFollowRequests
  end.

Definition is_lock_call (c : Call) : bool :=
  match c with
  | Lock _ | Unlock _ => true
  | _ => false
  end.

(** An account whose followers count is [maxInt]. *)
Definition accountMax : Account.t :=
  Account.mk "A" "https://example.org/users/a" "a"
    (Some (AccountStats.mk "A" maxInt 0 0 0 0)).

(** The subject with other values in its three approval fields. *)
Definition fave_with_approval_state (fave : StatusFave.t)
  (pending : option bool) (preApproved : bool) (approvedBy : string) : StatusFave.t :=
  StatusFave.set_ApprovedByURI
    (StatusFave.set_PreApproved (StatusFave.set_PendingApproval fave pending) preApproved)
    approvedBy.

Definition status_with_approval_state (status : Status.t)
  (pending : option bool) (preApproved : bool) (approvedBy : string) : Status.t :=
  Status.set_ApprovedByURI
    (Status.set_PreApproved (Status.set_PendingApproval status pending) preApproved)
    approvedBy.

(** Two runs made the same calls, left the same world and returned the
    same approval or error; when they returned an approval they left the
    same subject. *)
Definition same_approval_run {W S}
  (run1 run2 : Res (S * (error + InteractionApproval.t)) * W * list Event) : Prop :=
  let '(r1, w1, t1) := run1 in
  let '(r2, w2, t2) := run2 in
  t1 = t2 /\ w1 = w2 /\
  match r1, r2 with
  | Ok (s1, x1), Ok (s2, x2) =>
      x1 = x2 /\ match x1 with inr _ => s1 = s2 | inl _ => True end
  | Panic, Panic => True
  | _, _ => False
  end.

(** * Proofs *)

(** ** Rules for runs *)








(** ** Facts on traces *)


Lemma calls_app (t1 t2 : list Event) : calls (t1 ++ t2) = calls t1 ++ calls t2.
Proof. apply map_app. Qed.







(** ** The deletion cascade *)














(** A failed [Cancel] alone leaves the cascade successful. *)
Example wipeStatus_cancel_failure_unreported :
  let failing c := if is_SchedulerCancel c then Some (ErrOther "no such task") else None in
  wipeStatus (fake failing [] []) status1 true [] =
    (Ok None, [],
     [(MediaDelete "M1", RetErr None); (MediaDelete "M2", RetErr None);
      (DeleteMentionByID "N1", RetErr None);
      (DeleteNotificationsForStatus "S1", RetErr None);
      (DeleteStatusBookmarksForStatus "S1", RetErr None);
      (DeleteStatusFavesForStatus "S1", RetErr None);
      (DeletePollByID "P1", RetErr None); (DeletePollVotes "P1", RetErr None);
      (SchedulerCancel "P1", RetBool false);
      (GetStatusBoosts "S1", RetStatuses (inr []));
      (DeleteStatusFromTimelines "S1", RetErr None);
      (DeleteStatusFromConversations "S1", RetErr None);
      (DeleteStatusByID "S1", RetErr None)]).
Proof. reflexivity. Qed.

(** A failed attachment deletion is reported, and nothing after it is
    skipped. *)
Example wipeStatus_attachment_failure :
  let failing c :=
    match c with
    | MediaDelete "M1" => Some (ErrOther "disk error")
    | _ => None
    end in
  let '(res, _, tr) := wipeStatus (fake failing [] []) status1 true [] in
  res = Ok (Some (Joined [Wrapf "error deleting media: " (ErrOther "disk error")])) /\
  calls tr = cascade_calls status1 true [].
Proof. split; reflexivity. Qed.

(** ** The follower migration *)

Lemma split_app {A} (t1 t2 pre post : list A) (x : A) :
  t1 ++ t2 = pre ++ x :: post ->
  (exists post1, t1 = pre ++ x :: post1 /\ post = post1 ++ t2) \/
  (exists pre2, pre = t1 ++ pre2 /\ t2 = pre2 ++ x :: post).
Proof.
  revert pre. induction t1 as [| y t1 IH]; intros pre E.
  - right. exists pre. auto.
  - destruct pre as [| z pre]; cbn in E; inversion E; subst.
    + left. exists t1. auto.
    + destruct (IH pre H1) as [(post1 & -> & ->) | (pre2 & -> & ->)].
      * left. exists post1. auto.
      * right. exists pre2. auto.
Qed.

Lemma creates_app targetAcct t1 t2 :
  creates_for_others_only targetAcct t1 ->
  creates_for_others_only targetAcct t2 ->
  creates_for_others_only targetAcct (t1 ++ t2).
Proof.
  intros H1 H2 pre account form o post E.
  destruct (split_app _ _ _ _ _ E) as [(post1 & E1 & _) | (pre2 & -> & E2)].
  - eapply H1; eassumption.
  - destruct (H2 _ _ _ _ _ E2) as (pre' & id & r & -> & Hid).
    exists (t1 ++ pre'), id, r. rewrite app_assoc. auto.
Qed.

Lemma retracts_app targetAcct fs1 fs2 t1 t2 :
  retracts_target targetAcct fs1 t1 ->
  retracts_target targetAcct fs2 t2 ->
  retracts_target targetAcct (fs1 ++ fs2) (t1 ++ t2).
Proof.
  intros H1 H2 pre account post E.
  destruct (split_app _ _ _ _ _ E) as [(post1 & E1 & ->) | (pre2 & -> & E2)].
  - destruct (H1 _ _ _ E1) as (f & o & post' & Hin & Hid & ->).
    exists f, o, (post' ++ t2). rewrite in_app_iff. auto.
  - destruct (H2 _ _ _ E2) as (f & o & post' & Hin & Hid & ->).
    exists f, o, post'. rewrite in_app_iff. auto.
Qed.

Ltac split_trace E :=
  cbn in E;
  match type of E with
  | _ = ?pre ++ _ =>
      destruct pre as [| ? [| ? [| ? [| ? pre]]]]; cbn in E; inversion E; subst; clear E;
      try match goal with
          | H : [] = ?l ++ _ :: _ |- _ => destruct l; discriminate H
          end
  end.

Lemma redirectFollower_run {W} (u : utils W) targetAcct follow w :
  exists r w' tr,
    redirectFollower u targetAcct follow w = (Ok r, w', tr) /\
    match r with
    | None => clean tr /\ exists account, calls tr = follower_calls targetAcct (follow, account)
    | Some b => b = false /\ aborted tr
    end /\
    creates_for_others_only targetAcct tr /\
    retracts_target targetAcct [follow] tr.
Proof.
  unfold redirectFollower, bind, call, ret.
  destruct (DB_GetAccountByID u (Follow.AccountID follow) w) as [[e | account] w1].
  { do 3 eexists. split; [reflexivity |]. split; [| split].
    - split; [reflexivity |].
      exists [], (GetAccountByID (Follow.AccountID follow), RetAccount (inl e)).
      repeat split. constructor.
    - intros pre a form o post E. split_trace E.
    - intros pre a post E. split_trace E. }
  cbn [Follow.set_Account Follow.AccountID Follow.Account Follow.ShowReblogs Follow.Notify
       Follow.TargetAccountID].
  destruct (String.eqb_spec (Follow.AccountID follow) (Account.ID targetAcct)) as [Heq | Hne];
    cbn [negb].
  - destruct (account_FollowRemove u (Some account) (Follow.TargetAccountID follow) w1)
      as [[e |] w2].
    + do 3 eexists. split; [reflexivity |]. split; [| split].
      * split; [reflexivity |].
        eexists [_], _. cbn. split; [reflexivity |]. split; [| reflexivity].
        repeat constructor.
      * intros pre a form o post E. split_trace E.
      * intros pre a post E. split_trace E.
        exists follow, (Some e), []. cbn. auto.
    + do 3 eexists. split; [reflexivity |]. split; [| split].
      * split; [repeat constructor |]. exists account. cbn.
        rewrite Heq, String.eqb_refl. reflexivity.
      * intros pre a form o post E. split_trace E.
      * intros pre a post E. split_trace E.
        exists follow, None, []. cbn. auto.
  - destruct (account_FollowCreate u (Some account) _ w1) as [[e |] w2].
    + do 3 eexists. split; [reflexivity |]. split; [| split].
      * split; [reflexivity |].
        eexists [_], _. cbn. split; [reflexivity |]. split; [| reflexivity].
        repeat constructor.
      * intros pre a form o post E. split_trace E.
        eexists [], _, _. split; [reflexivity | exact Hne].
      * intros pre a post E. split_trace E. congruence.
    + destruct (account_FollowRemove u (Some account) (Follow.TargetAccountID follow) w2)
        as [[e |] w3].
      * do 3 eexists. split; [reflexivity |]. split; [| split].
        -- split; [reflexivity |].
           eexists [_; _], _. cbn. split; [reflexivity |]. split; [| reflexivity].
           repeat constructor.
        -- intros pre a form o post E. split_trace E.
           eexists [], _, _. split; [reflexivity | exact Hne].
        -- intros pre a post E. split_trace E. congruence.
      * do 3 eexists. split; [reflexivity |]. split; [| split].
        -- split; [repeat constructor |]. exists account. cbn.
           destruct (String.eqb_spec (Follow.AccountID follow) (Account.ID targetAcct));
             [contradiction | reflexivity].
        -- intros pre a form o post E. split_trace E.
           eexists [], _, _. split; [reflexivity | exact Hne].
        -- intros pre a post E. split_trace E. congruence.
Qed.

Lemma clean_app t1 t2 : clean t1 -> clean t2 -> clean (t1 ++ t2).
Proof. intros H1 H2. apply Forall_app. auto. Qed.

Lemma aborted_app t1 t2 : clean t1 -> aborted t2 -> aborted (t1 ++ t2).
Proof.
  intros H1 (pre & ev & -> & Hc & Hf). exists (t1 ++ pre), ev.
  rewrite app_assoc. repeat split; [apply clean_app; assumption | exact Hf].
Qed.

Lemma redirect_loop_run {W} (u : utils W) targetAcct followers :
  forall w,
  exists r w' tr,
    for_range_return followers (redirectFollower u targetAcct) w = (Ok r, w', tr) /\
    match r with
    | None =>
        clean tr /\
        exists accounts,
          length accounts = length followers /\
          calls tr = flat_map (follower_calls targetAcct) (combine followers accounts)
    | Some b => b = false /\ aborted tr
    end /\
    creates_for_others_only targetAcct tr /\
    retracts_target targetAcct followers tr.
Proof.
  induction followers as [| follow followers IH]; intros w.
  - exists None, w, []. split; [reflexivity |]. split; [| split].
    + split; [constructor |]. exists []. auto.
    + intros pre a form o post E. destruct pre; discriminate E.
    + intros pre a post E. destruct pre; discriminate E.
  - cbn [for_range_return]. unfold bind.
    destruct (redirectFollower_run u targetAcct follow w)
      as (r1 & w1 & t1 & E1 & H1 & P1 & Q1).
    rewrite E1. destruct r1 as [b |].
    + destruct H1 as [-> Ha]. exists (Some false), w1, (t1 ++ []).
      split; [reflexivity |]. rewrite app_nil_r. split; [auto |]. split; [exact P1 |].
      intros pre a post E. destruct (Q1 _ _ _ E) as (f & o & post' & Hin & Hid & ->).
      exists f, o, post'. split; [| auto]. destruct Hin as [-> | []]. left. reflexivity.
    + destruct H1 as [Hc (account & Hcalls)].
      destruct (IH w1) as (r2 & w2 & t2 & E2 & H2 & P2 & Q2). rewrite E2.
      exists r2, w2, (t1 ++ t2). split; [reflexivity |]. split; [| split].
      * destruct r2 as [b |].
        -- destruct H2 as [-> Ha]. split; [reflexivity |]. apply aborted_app; assumption.
        -- destruct H2 as [Hc2 (accounts & Hlen & Hcalls2)]. split; [apply clean_app; assumption |].
           exists (account :: accounts). cbn [length combine flat_map].
           rewrite calls_app, Hcalls, Hcalls2, Hlen. auto.
      * apply creates_app; assumption.
      * apply (retracts_app targetAcct [follow] followers); assumption.
Qed.



(** The target among the followers: a follow is created for the other
    follower only, and both old follows are removed. *)
Example redirectFollowers_target_among_followers :
  redirectFollowers (fake never [] [followCA; followBA]) accountA accountB [] =
    (Ok true, [],
     [(GetAccountLocalFollowers "A", RetFollows (inr [followCA; followBA]));
      (GetAccountByID "C", RetAccount (inr (Account.mk "C" "C" "C" None)));
      (FollowCreate (Some (Account.mk "C" "C" "C" None))
         (AccountFollowRequest.mk "B" (Some true) (Some false)), RetErr None);
      (FollowRemove (Some (Account.mk "C" "C" "C" None)) "A", RetErr None);
      (GetAccountByID "B", RetAccount (inr (Account.mk "B" "B" "B" None)));
      (FollowRemove (Some (Account.mk "B" "B" "B" None)) "A", RetErr None)]).
Proof. reflexivity. Qed.

(** C10: when the lookup of the followers fails, [redirectFollowers]
    makes no other call; it returns [true] when the error is "no entries"
    (there is nothing to redirect) and [false] for any other error. *)
Theorem redirectFollowers_no_entries {W} (u : utils W)
  (originAcct targetAcct : Account.t) (w w1 : W) (err : error) :
  DB_GetAccountLocalFollowers u (Account.ID originAcct) w = (inl err, w1) ->
  redirectFollowers u originAcct targetAcct w =
    (Ok (errors_Is_ErrNoEntries err), w1,
     [(GetAccountLocalFollowers (Account.ID originAcct), RetFollows (inl err))]).
Proof.
  intros E. unfold redirectFollowers, bind, call. rewrite E. cbv beta iota.
  destruct (errors_Is_ErrNoEntries err); reflexivity.
Qed.

Lemma redirectFollowers_no_entries_witness :
  redirectFollowers
    (fake (fun c => match c with
                    | GetAccountLocalFollowers _ => Some (Wrapf "select: " ErrNoEntries)
                    | _ => None
                    end) [] [followCA])
    accountA accountB [] =
    (Ok true, [],
     [(GetAccountLocalFollowers "A", RetFollows (inl (Wrapf "select: " ErrNoEntries)))]).
Proof.
  exact (redirectFollowers_no_entries
           (fake (fun c => match c with
                           | GetAccountLocalFollowers _ => Some (Wrapf "select: " ErrNoEntries)
                           | _ => None
                           end) [] [followCA])
           accountA accountB [] [] (Wrapf "select: " ErrNoEntries) eq_refl).
Defined.

(** ** The account counters *)

Lemma clamp_max (z : Z) : (if z <? 0 then 0 else z) = Z.max 0 z.
Proof. destruct (Z.ltb_spec z 0); lia. Qed.

Lemma wrapInt_small (z : Z) : minInt <= z <= maxInt -> wrapInt z = z.
Proof.
  unfold wrapInt, minInt, maxInt, intSize. intros H.
  change (2 ^ (64 - 1)) with 9223372036854775808 in *.
  change (2 ^ 64) with 18446744073709551616.
  rewrite Z.mod_small; lia.
Qed.

Ltac unfold_counter :=
  unfold run_op, decrement, incrementStatusesCount, decrementStatusesCount,
    incrementFollowersCount, decrementFollowersCount, incrementFollowingCount,
    decrementFollowingCount, incrementFollowRequestsCount, decrementFollowRequestsCount,
    locked, bind, call, emit, ret.

(** C9: each counter operation changes the fields it is named for and no
    other, and persists exactly those.  Whatever the store answers: when
    the stats cannot be populated nothing is changed or written; otherwise
    the one update of the run names exactly the columns of the fields of
    [touched] (statuses count and last status at for
    [incrementStatusesCount], the single counter for every other
    operation), every other field of the stats is as it was populated, and
    the touched fields hold the counter plus one (wrapping), the counter
    minus one floored at zero, and the creation time of the status. *)
Theorem counter_op_touches_its_fields {W} (u : utils W)
  (op : CounterOp) (account : Account.t) (w : W) :
  exists r w1,
    DB_PopulateAccountStats u account w = (r, w1) /\
    match r with
    | inl err =>
        run_op u op account w =
          (Ok (account, Some (Wrapf "db error getting account stats: " err)), w1,
           [(Lock (Account.URI account), RetUnit);
            (PopulateAccountStats account, RetStats (inl err));
            (Unlock (Account.URI account), RetUnit)])
    | inr stats0 =>
        exists stats1 err w2,
          run_op u op account w =
            (Ok (Account.set_Stats account (Some stats1),
                 wrapErr "db error updating account stats: " err), w2,
             [(Lock (Account.URI account), RetUnit);
              (PopulateAccountStats account, RetStats (inr stats0));
              (UpdateAccountStats stats1 (map stats_column (touched op)), RetErr err);
              (Unlock (Account.URI account), RetUnit)]) /\
          (forall f, ~ In f (touched op) -> stats_same f stats0 stats1) /\
          touched_values op stats0 stats1
    end.
Proof.
  destruct (DB_PopulateAccountStats u account w) as [r w1] eqn:Ep.
  exists r, w1. split; [reflexivity |].
  destruct r as [err | stats0].
  - destruct op; unfold_counter; rewrite Ep; reflexivity.
  - destruct op; unfold_counter; rewrite Ep; cbv zeta;
      match goal with
      | |- context [DB_UpdateAccountStats u ?s ?cols w1] =>
          destruct (DB_UpdateAccountStats u s cols w1) as [err w2] eqn:Eu;
          exists s, err, w2
      end;
      (split; [reflexivity |]);
      (split;
       [ intros f Hf; destruct f; cbn in Hf |- *;
         try reflexivity; try (exfalso; tauto);
         try (match goal with |- context [if ?b then _ else _] => destruct b end; reflexivity)
       | cbn; try rewrite <- clamp_max;
         try (match goal with |- context [if ?b then _ else _] => destruct b end);
         cbn; auto ]).
Qed.

Lemma decrement_run {W} (u : utils W) (c : Counter) (account : Account.t) (w : W) :
  exists r w1,
    DB_PopulateAccountStats u account w = (r, w1) /\
    match r with
    | inl err =>
        decrement u c account w =
          (Ok (account, Some (Wrapf "db error getting account stats: " err)), w1,
           [(Lock (Account.URI account), RetUnit);
            (PopulateAccountStats account, RetStats (inl err));
            (Unlock (Account.URI account), RetUnit)])
    | inr stats0 =>
        exists stats1 err w2,
          decrement u c account w =
            (Ok (Account.set_Stats account (Some stats1),
                 wrapErr "db error updating account stats: " err), w2,
             [(Lock (Account.URI account), RetUnit);
              (PopulateAccountStats account, RetStats (inr stats0));
              (UpdateAccountStats stats1 [counter_column c], RetErr err);
              (Unlock (Account.URI account), RetUnit)]) /\
          counter c stats1 = Z.max 0 (wrapInt (counter c stats0 - 1))
    end.
Proof.
  destruct (DB_PopulateAccountStats u account w) as [r w1] eqn:Ep.
  exists r, w1. split; [reflexivity |].
  destruct r as [err | stats0].
  - destruct c; unfold_counter; rewrite Ep; reflexivity.
  - destruct c; unfold_counter; rewrite Ep; cbv zeta;
      match goal with
      | |- context [DB_UpdateAccountStats u ?s ?cols w1] =>
          destruct (DB_UpdateAccountStats u s cols w1) as [err w2] eqn:Eu;
          exists s, err, w2
      end;
      (split; [reflexivity |]);
      cbn; rewrite <- clamp_max;
      match goal with |- context [if ?b then _ else _] => destruct b end; reflexivity.
Qed.

(** C2: a decrement never leaves or writes a negative counter.  One call:
    whatever stats the store populated, the value written is not negative,
    and from a non-negative counter it is the counter minus one, or zero
    when that would be negative.  Any number of calls on an account whose
    counter in memory is not negative: every value written is non-negative
    and so is the counter left in memory. *)
Theorem decrements_never_negative {W} (u : utils W) (c : Counter) :
  (forall account w,
      exists r w1,
        DB_PopulateAccountStats u account w = (r, w1) /\
        match r with
        | inl err =>
            decrement u c account w =
              (Ok (account, Some (Wrapf "db error getting account stats: " err)), w1,
               [(Lock (Account.URI account), RetUnit);
                (PopulateAccountStats account, RetStats (inl err));
                (Unlock (Account.URI account), RetUnit)])
        | inr stats0 =>
            exists stats1 err w2,
              decrement u c account w =
                (Ok (Account.set_Stats account (Some stats1),
                     wrapErr "db error updating account stats: " err), w2,
                 [(Lock (Account.URI account), RetUnit);
                  (PopulateAccountStats account, RetStats (inr stats0));
                  (UpdateAccountStats stats1 [counter_column c], RetErr err);
                  (Unlock (Account.URI account), RetUnit)]) /\
              0 <= counter c stats1 /\
              (0 <= counter c stats0 <= maxInt ->
               counter c stats1 = Z.max 0 (counter c stats0 - 1))
        end) /\
  (forall n account w,
      holds_nonneg c account ->
      exists account' w' tr,
        decrements u c n account w = (Ok account', w', tr) /\
        writes_nonneg c tr /\
        holds_nonneg c account').
Proof.
  split.
  - intros account w.
    destruct (decrement_run u c account w) as (r & w1 & Ep & H).
    exists r, w1. split; [exact Ep |].
    destruct r as [err | stats0]; [exact H |].
    destruct H as (stats1 & err & w2 & E & Hv).
    exists stats1, err, w2. split; [exact E |]. split; [lia |].
    intros Hr. rewrite Hv, wrapInt_small; [reflexivity |].
    unfold minInt, maxInt, intSize in *. lia.
  - induction n as [| n IH]; intros account w Hh.
    + exists account, w, []. split; [reflexivity |]. split; [constructor | exact Hh].
    + cbn [decrements]. unfold bind.
      destruct (decrement_run u c account w) as (r & w1 & Ep & H).
      destruct r as [err | stats0].
      * rewrite H. cbn [fst].
        destruct (IH account w1 Hh) as (account' & w' & tr & E & Hw & Hh').
        rewrite E. do 3 eexists. split; [reflexivity |]. split; [| exact Hh'].
        repeat (constructor; [exact I |]). exact Hw.
      * destruct H as (stats1 & err & w2 & E1 & Hv). rewrite E1. cbn [fst].
        assert (H1 : holds_nonneg c (Account.set_Stats account (Some stats1)))
          by (unfold holds_nonneg; cbn; lia).
        destruct (IH _ w2 H1) as (account' & w' & tr & E & Hw & Hh').
        rewrite E. do 3 eexists. split; [reflexivity |]. split; [| exact Hh'].
        constructor; [exact I |]. constructor; [exact I |].
        constructor; [cbn; lia |]. constructor; [exact I |]. exact Hw.
Qed.

Lemma decrements_never_negative_witness :
  holds_nonneg Statuses accountOne /\
  exists account' w' tr,
    decrements (fake never [] []) Statuses 3 accountOne [] = (Ok account', w', tr) /\
    writes_nonneg Statuses tr /\
    holds_nonneg Statuses account'.
Proof.
  split.
  - cbn. lia.
  - apply (proj2 (decrements_never_negative (fake never [] []) Statuses) 3%nat accountOne []).
    cbn. lia.
Defined.

(** Two decrements of a statuses count of 1 write 0 twice. *)
Example decrements_clamp_at_zero :
  let '(r, _, tr) := decrements (fake never [] []) Statuses 2 accountOne [] in
  r = Ok (Account.mk "A" "https://example.org/users/a" "a"
            (Some (AccountStats.mk "A" 5 6 7 0 0))) /\
  map (fun ev => match fst ev with
                 | UpdateAccountStats s columns => Some (AccountStats.StatusesCount s, columns)
                 | _ => None
                 end) tr =
    [None; None; Some (0, ["statuses_count"]); None;
     None; None; Some (0, ["statuses_count"]); None].
Proof. vm_compute. split; reflexivity. Qed.

(** ** The interaction approvals *)

Ltac unfold_approve :=
  unfold approveFave, approveReply, approveAnnounce, bind, call, deref, panic, ret.

Lemma approveFave_run {W} (u : utils W) fave w fave' r w' tr :
  approveFave u fave w = (Ok (fave', r), w', tr) ->
  exists approval pre,
    InteractionApproval.InteractionType approval = InteractionLike /\
    no_subject_update pre /\
    ((fave' = fave /\ tr = pre /\
      exists e, In (PutInteractionApproval approval, RetErr (Some e)) pre /\
                r = inl (Wrapf "db error inserting interaction approval: " e))
     \/
     (fave' = approved_fave fave (InteractionApproval.URI approval) /\
      In (PutInteractionApproval approval, RetErr None) pre /\
      exists o,
        tr = pre ++ [(UpdateStatusFave fave' approval_columns, RetErr o)] /\
        r = match o with
            | Some e => inl (Wrapf "db error updating status fave: " e)
            | None => inr approval
            end)).
Proof.
  unfold_approve.
  destruct (id_NewULID u w) as [id w1].
  destruct (StatusFave.TargetAccount fave) as [target |] eqn:Et; [| discriminate].
  match goal with
  | |- context [DB_PutInteractionApproval u ?a w1] =>
      set (approval := a); destruct (DB_PutInteractionApproval u approval w1) as [[e |] w2]
  end.
  - intros E. inversion E; subst. exists approval.
    exists [(NewULID, RetString id); (PutInteractionApproval approval, RetErr (Some e))].
    split; [reflexivity |].
    split; [repeat constructor |]. left. split; [reflexivity |]. split; [reflexivity |].
    exists e. split; [cbn; auto | reflexivity].
  - match goal with
    | |- context [DB_UpdateStatusFave u ?f ?c w2] =>
        destruct (DB_UpdateStatusFave u f c w2) as [[e |] w3]
    end; intros E; inversion E; subst; exists approval;
      exists [(NewULID, RetString id); (PutInteractionApproval approval, RetErr None)];
      (split; [reflexivity |]); (split; [repeat constructor |]); right;
      (split; [reflexivity |]); (split; [cbn; auto |]); eexists; split; reflexivity.
Qed.

Lemma approveReply_run {W} (u : utils W) status w status' r w' tr :
  approveReply u status w = (Ok (status', r), w', tr) ->
  exists approval pre,
    InteractionApproval.InteractionType approval = InteractionReply /\
    no_subject_update pre /\
    ((status' = status /\ tr = pre /\
      exists e, In (PutInteractionApproval approval, RetErr (Some e)) pre /\
                r = inl (Wrapf "db error inserting interaction approval: " e))
     \/
     (status' = approved_status status (InteractionApproval.URI approval) /\
      In (PutInteractionApproval approval, RetErr None) pre /\
      exists o,
        tr = pre ++ [(UpdateStatus status' approval_columns, RetErr o)] /\
        r = match o with
            | Some e => inl (Wrapf "db error updating status: " e)
            | None => inr approval
            end)).
Proof.
  unfold_approve.
  destruct (id_NewULID u w) as [id w1].
  destruct (Status.InReplyToAccount status) as [target |] eqn:Et; [| discriminate].
  match goal with
  | |- context [DB_PutInteractionApproval u ?a w1] =>
      set (approval := a); destruct (DB_PutInteractionApproval u approval w1) as [[e |] w2]
  end.
  - intros E. inversion E; subst. exists approval.
    exists [(NewULID, RetString id); (PutInteractionApproval approval, RetErr (Some e))].
    split; [reflexivity |].
    split; [repeat constructor |]. left. split; [reflexivity |]. split; [reflexivity |].
    exists e. split; [cbn; auto | reflexivity].
  - match goal with
    | |- context [DB_UpdateStatus u ?f ?c w2] =>
        destruct (DB_UpdateStatus u f c w2) as [[e |] w3]
    end; intros E; inversion E; subst; exists approval;
      exists [(NewULID, RetString id); (PutInteractionApproval approval, RetErr None)];
      (split; [reflexivity |]); (split; [repeat constructor |]); right;
      (split; [reflexivity |]); (split; [cbn; auto |]); eexists; split; reflexivity.
Qed.

Lemma approveAnnounce_run {W} (u : utils W) boost w boost' r w' tr :
  approveAnnounce u boost w = (Ok (boost', r), w', tr) ->
  exists approval pre,
    InteractionApproval.InteractionType approval = InteractionReply /\
    no_subject_update pre /\
    ((boost' = boost /\ tr = pre /\
      exists e, In (PutInteractionApproval approval, RetErr (Some e)) pre /\
                r = inl (Wrapf "db error inserting interaction approval: " e))
     \/
     (boost' = approved_status boost (InteractionApproval.URI approval) /\
      In (PutInteractionApproval approval, RetErr None) pre /\
      exists o,
        tr = pre ++ [(UpdateStatus boost' approval_columns, RetErr o)] /\
        r = match o with
            | Some e => inl (Wrapf "db error updating boost wrapper status: " e)
            | None => inr approval
            end)).
Proof.
  unfold_approve.
  destruct (id_NewULID u w) as [id w1].
  destruct (Status.BoostOfAccount boost) as [target |] eqn:Et; [| discriminate].
  match goal with
  | |- context [DB_PutInteractionApproval u ?a w1] =>
      set (approval := a); destruct (DB_PutInteractionApproval u approval w1) as [[e |] w2]
  end.
  - intros E. inversion E; subst. exists approval.
    exists [(NewULID, RetString id); (PutInteractionApproval approval, RetErr (Some e))].
    split; [reflexivity |].
    split; [repeat constructor |]. left. split; [reflexivity |]. split; [reflexivity |].
    exists e. split; [cbn; auto | reflexivity].
  - match goal with
    | |- context [DB_UpdateStatus u ?f ?c w2] =>
        destruct (DB_UpdateStatus u f c w2) as [[e |] w3]
    end; intros E; inversion E; subst; exists approval;
      exists [(NewULID, RetString id); (PutInteractionApproval approval, RetErr None)];
      (split; [reflexivity |]); (split; [repeat constructor |]); right;
      (split; [reflexivity |]); (split; [cbn; auto |]); eexists; split; reflexivity.
Qed.

(** C8, as amended: an approval assigns the three approval fields of its
    subject and persists two of them.  For each of the three operations,
    every run that returns drew an identifier and tried to store the
    approval, and then:
    - either the approval could not be stored: no other call is made, the
      subject is untouched and the error of the store is returned, wrapped;
    - or the approval is stored: the subject has its pending flag cleared,
      its pre-approval flag cleared and its approving URI set to the URI of
      the approval, every other field as before; the next and last call
      is the update of that subject, naming exactly the columns
      "pending_approval" and "approved_by_uri"; and the run returns the
      approval, or the wrapped error of the update. *)
Theorem approval_persists_pending_and_uri {W} (u : utils W) :
  (forall fave w fave' r w' tr,
      approveFave u fave w = (Ok (fave', r), w', tr) ->
      exists id approval,
        (exists e,
            tr = [(NewULID, RetString id);
                  (PutInteractionApproval approval, RetErr (Some e))] /\
            fave' = fave /\
            r = inl (Wrapf "db error inserting interaction approval: " e))
        \/
        (exists o,
            tr = [(NewULID, RetString id);
                  (PutInteractionApproval approval, RetErr None);
                  (UpdateStatusFave fave' ["pending_approval"; "approved_by_uri"],
                   RetErr o)] /\
            fave' =
              StatusFave.mk (StatusFave.ID fave) (StatusFave.URI fave)
                (StatusFave.AccountID fave) (StatusFave.Account fave)
                (StatusFave.TargetAccountID fave) (StatusFave.TargetAccount fave)
                (Some false) false (InteractionApproval.URI approval) /\
            r = match o with
                | Some e => inl (Wrapf "db error updating status fave: " e)
                | None => inr approval
                end)) /\
  (forall status w status' r w' tr,
      approveReply u status w = (Ok (status', r), w', tr) ->
      exists id approval,
        (exists e,
            tr = [(NewULID, RetString id);
                  (PutInteractionApproval approval, RetErr (Some e))] /\
            status' = status /\
            r = inl (Wrapf "db error inserting interaction approval: " e))
        \/
        (exists o,
            tr = [(NewULID, RetString id);
                  (PutInteractionApproval approval, RetErr None);
                  (UpdateStatus status' ["pending_approval"; "approved_by_uri"], RetErr o)] /\
            status' =
              Status.mk (Status.ID status) (Status.URI status) (Status.CreatedAt status)
                (Status.AccountID status) (Status.Account status)
                (Status.AttachmentIDs status) (Status.MentionIDs status)
                (Status.PollID status) (Status.InReplyToAccountID status)
                (Status.InReplyToAccount status) (Status.BoostOfAccountID status)
                (Status.BoostOfAccount status)
                (Some false) false (InteractionApproval.URI approval) /\
            r = match o with
                | Some e => inl (Wrapf "db error updating status: " e)
                | None => inr approval
                end)) /\
  (forall boost w boost' r w' tr,
      approveAnnounce u boost w = (Ok (boost', r), w', tr) ->
      exists id approval,
        (exists e,
            tr = [(NewULID, RetString id);
                  (PutInteractionApproval approval, RetErr (Some e))] /\
            boost' = boost /\
            r = inl (Wrapf "db error inserting interaction approval: " e))
        \/
        (exists o,
            tr = [(NewULID, RetString id);
                  (PutInteractionApproval approval, RetErr None);
                  (UpdateStatus boost' ["pending_approval"; "approved_by_uri"], RetErr o)] /\
            boost' =
              Status.mk (Status.ID boost) (Status.URI boost) (Status.CreatedAt boost)
                (Status.AccountID boost) (Status.Account boost)
                (Status.AttachmentIDs boost) (Status.MentionIDs boost)
                (Status.PollID boost) (Status.InReplyToAccountID boost)
                (Status.InReplyToAccount boost) (Status.BoostOfAccountID boost)
                (Status.BoostOfAccount boost)
                (Some false) false (InteractionApproval.URI approval) /\
            r = match o with
                | Some e => inl (Wrapf "db error updating boost wrapper status: " e)
                | None => inr approval
                end)).
Proof.
  split; [| split].
  - intros fave w fave' r w' tr. unfold_approve.
    destruct (id_NewULID u w) as [id w1].
    destruct (StatusFave.TargetAccount fave) as [target |] eqn:Et; [| discriminate].
    match goal with
    | |- context [DB_PutInteractionApproval u ?a w1] =>
        set (approval := a); destruct (DB_PutInteractionApproval u approval w1) as [[e |] w2]
    end.
    + intros E. inversion E; subst. exists id, approval. left. exists e. auto.
    + match goal with
      | |- context [DB_UpdateStatusFave u ?f ?c w2] =>
          destruct (DB_UpdateStatusFave u f c w2) as [o w3]
      end.
      intros E. exists id, approval. right. exists o.
      destruct o; inversion E; subst; rewrite <- Et; auto.
  - intros status w status' r w' tr. unfold_approve.
    destruct (id_NewULID u w) as [id w1].
    destruct (Status.InReplyToAccount status) as [target |] eqn:Et; [| discriminate].
    match goal with
    | |- context [DB_PutInteractionApproval u ?a w1] =>
        set (approval := a); destruct (DB_PutInteractionApproval u approval w1) as [[e |] w2]
    end.
    + intros E. inversion E; subst. exists id, approval. left. exists e. auto.
    + match goal with
      | |- context [DB_UpdateStatus u ?f ?c w2] =>
          destruct (DB_UpdateStatus u f c w2) as [o w3]
      end.
      intros E. exists id, approval. right. exists o.
      destruct o; inversion E; subst; rewrite <- Et; auto.
  - intros boost w boost' r w' tr. unfold_approve.
    destruct (id_NewULID u w) as [id w1].
    destruct (Status.BoostOfAccount boost) as [target |] eqn:Et; [| discriminate].
    match goal with
    | |- context [DB_PutInteractionApproval u ?a w1] =>
        set (approval := a); destruct (DB_PutInteractionApproval u approval w1) as [[e |] w2]
    end.
    + intros E. inversion E; subst. exists id, approval. left. exists e. auto.
    + match goal with
      | |- context [DB_UpdateStatus u ?f ?c w2] =>
          destruct (DB_UpdateStatus u f c w2) as [o w3]
      end.
      intros E. exists id, approval. right. exists o.
      destruct o; inversion E; subst; rewrite <- Et; auto.
Qed.

Lemma approval_persists_pending_and_uri_witness :
  exists id approval,
    (exists e,
        [(NewULID, RetString "01J");
         (PutInteractionApproval
            (InteractionApproval.mk "01J" "B" (Some accountB) "C" None
               "https://example.org/users/c/liked/FV1" InteractionLike "b/accepts/01J"),
          RetErr None);
         (UpdateStatusFave (approved_fave fave1 "b/accepts/01J")
            ["pending_approval"; "approved_by_uri"], RetErr None)] =
        [(NewULID, RetString id); (PutInteractionApproval approval, RetErr (Some e))] /\
        approved_fave fave1 "b/accepts/01J" = fave1 /\
        inr (InteractionApproval.mk "01J" "B" (Some accountB) "C" None
               "https://example.org/users/c/liked/FV1" InteractionLike "b/accepts/01J") =
          inl (Wrapf "db error inserting interaction approval: " e))
    \/
    (exists o,
        [(NewULID, RetString "01J");
         (PutInteractionApproval
            (InteractionApproval.mk "01J" "B" (Some accountB) "C" None
               "https://example.org/users/c/liked/FV1" InteractionLike "b/accepts/01J"),
          RetErr None);
         (UpdateStatusFave (approved_fave fave1 "b/accepts/01J")
            ["pending_approval"; "approved_by_uri"], RetErr None)] =
        [(NewULID, RetString id);
         (PutInteractionApproval approval, RetErr None);
         (UpdateStatusFave (approved_fave fave1 "b/accepts/01J")
            ["pending_approval"; "approved_by_uri"], RetErr o)] /\
        approved_fave fave1 "b/accepts/01J" =
          StatusFave.mk (StatusFave.ID fave1) (StatusFave.URI fave1)
            (StatusFave.AccountID fave1) (StatusFave.Account fave1)
            (StatusFave.TargetAccountID fave1) (StatusFave.TargetAccount fave1)
            (Some false) false (InteractionApproval.URI approval) /\
        inr (InteractionApproval.mk "01J" "B" (Some accountB) "C" None
               "https://example.org/users/c/liked/FV1" InteractionLike "b/accepts/01J") =
          match o with
          | Some e => inl (Wrapf "db error updating status fave: " e)
          | None => inr approval
          end).
Proof.
  exact (proj1 (approval_persists_pending_and_uri (fake never [] []))
           fave1 ["01J"] _ _ _ _ eq_refl).
Defined.

(** C8, as stated, fails: approving a pre-approved fave changes its
    pre-approval flag, and no column for that flag is among the columns
    persisted. *)
Lemma approveFave_changes_more_than_it_persists :
  exists fave' approval columns,
    approveFave (fake never [] []) fave1 ["01J"] =
      (Ok (fave', inr approval), [],
       [(NewULID, RetString "01J");
        (PutInteractionApproval approval, RetErr None);
        (UpdateStatusFave fave' columns, RetErr None)]) /\
    ~ fave_same FavePreApproved fave1 fave' /\
    ~ In (fave_column FavePreApproved) columns /\
    ~ fave_persists_what_changed fave1 fave' columns.
Proof.
  do 3 eexists. split; [reflexivity |].
  assert (Hd : ~ fave_same FavePreApproved fave1
                  (approved_fave fave1 "b/accepts/01J")) by (cbn; discriminate).
  assert (Hn : ~ In (fave_column FavePreApproved) ["pending_approval"; "approved_by_uri"])
    by (cbn; intros [H | [H | []]]; discriminate H).
  split; [exact Hd |]. split; [exact Hn |].
  intros H. apply Hn. apply H. exact Hd.
Qed.

(** X1: the approval [approveFave] returns is tagged as a like, and is the
    one it stored. *)
Lemma approveFave_tags_like {W} (u : utils W) fave w fave' approval w' tr :
  approveFave u fave w = (Ok (fave', inr approval), w', tr) ->
  InteractionApproval.InteractionType approval = InteractionLike /\
  In (PutInteractionApproval approval, RetErr None) tr.
Proof.
  intros E. destruct (approveFave_run u _ _ _ _ _ _ E) as (a & pre & Hk & _ & H).
  destruct H as [(_ & _ & e & _ & He) | (_ & Hin & o & -> & Ho)]; [discriminate He |].
  destruct o; inversion Ho; subst. split; [exact Hk |]. apply in_or_app. left. exact Hin.
Qed.

Lemma approveFave_tags_like_witness :
  InteractionApproval.InteractionType
    (InteractionApproval.mk "01J" "B" (Some accountB) "C" None
       "https://example.org/users/c/liked/FV1" InteractionLike "b/accepts/01J") =
    InteractionLike /\
  In (PutInteractionApproval
        (InteractionApproval.mk "01J" "B" (Some accountB) "C" None
           "https://example.org/users/c/liked/FV1" InteractionLike "b/accepts/01J"),
      RetErr None)
    [(NewULID, RetString "01J");
     (PutInteractionApproval
        (InteractionApproval.mk "01J" "B" (Some accountB) "C" None
           "https://example.org/users/c/liked/FV1" InteractionLike "b/accepts/01J"),
      RetErr None);
     (UpdateStatusFave (approved_fave fave1 "b/accepts/01J")
        ["pending_approval"; "approved_by_uri"], RetErr None)].
Proof.
  exact (approveFave_tags_like (fake never [] []) fave1 ["01J"] _ _ _ _ eq_refl).
Defined.

(** X2: the approval [approveReply] returns is tagged as a reply, and is
    the one it stored. *)
Lemma approveReply_tags_reply {W} (u : utils W) status w status' approval w' tr :
  approveReply u status w = (Ok (status', inr approval), w', tr) ->
  InteractionApproval.InteractionType approval = InteractionReply /\
  In (PutInteractionApproval approval, RetErr None) tr.
Proof.
  intros E. destruct (approveReply_run u _ _ _ _ _ _ E) as (a & pre & Hk & _ & H).
  destruct H as [(_ & _ & e & _ & He) | (_ & Hin & o & -> & Ho)]; [discriminate He |].
  destruct o; inversion Ho; subst. split; [exact Hk |]. apply in_or_app. left. exact Hin.
Qed.

Lemma approveReply_tags_reply_witness :
  InteractionApproval.InteractionType
    (InteractionApproval.mk "01J" "B" (Some accountB) "C" None
       "https://example.org/users/c/statuses/RP1" InteractionReply "b/accepts/01J") =
    InteractionReply /\
  In (PutInteractionApproval
        (InteractionApproval.mk "01J" "B" (Some accountB) "C" None
           "https://example.org/users/c/statuses/RP1" InteractionReply "b/accepts/01J"),
      RetErr None)
    [(NewULID, RetString "01J");
     (PutInteractionApproval
        (InteractionApproval.mk "01J" "B" (Some accountB) "C" None
           "https://example.org/users/c/statuses/RP1" InteractionReply "b/accepts/01J"),
      RetErr None);
     (UpdateStatus (approved_status reply1 "b/accepts/01J")
        ["pending_approval"; "approved_by_uri"], RetErr None)].
Proof.
  exact (approveReply_tags_reply (fake never [] []) reply1 ["01J"] _ _ _ _ eq_refl).
Defined.

(** C1 fails for a boost: the approval [approveAnnounce] stores and returns
    is tagged as a reply, not as an announce. *)
Lemma approveAnnounce_tags_reply :
  exists boost' approval,
    approveAnnounce (fake never [] []) boost1 ["01J"] =
      (Ok (boost', inr approval), [],
       [(NewULID, RetString "01J");
        (PutInteractionApproval approval, RetErr None);
        (UpdateStatus boost' ["pending_approval"; "approved_by_uri"], RetErr None)]) /\
    InteractionApproval.InteractionType approval = InteractionReply /\
    InteractionApproval.InteractionType approval <> InteractionAnnounce.
Proof.
  do 2 eexists. split; [reflexivity |]. split; [reflexivity | discriminate].
Qed.

(** ** More on the deletion cascade *)











(** ** More on the follower migration *)

Lemma redirect_call_incl originAcct targetAcct fs fs' c :
  incl fs fs' -> redirect_call originAcct targetAcct fs c ->
  redirect_call originAcct targetAcct fs' c.
Proof.
  intros Hi. destruct c; cbn; auto.
  - intros (f & Hin & H). exists f. auto.
  - intros (f & Hin & H). exists f. auto.
  - intros (f & Hin & H). exists f. auto.
Qed.

Ltac each_call := cbn; repeat (apply Forall_cons; [solve [auto] |]); apply Forall_nil.

Lemma redirectFollower_calls {W} (u : utils W) originAcct targetAcct follow w :
  exists r w' tr,
    redirectFollower u targetAcct follow w = (Ok r, w', tr) /\
    Forall (redirect_call originAcct targetAcct [follow]) (calls tr) /\
    exists account,
      match r with
      | None => calls tr = follower_calls targetAcct (follow, account)
      | Some _ =>
          calls tr <> [] /\ is_prefix (calls tr) (follower_calls targetAcct (follow, account))
      end.
Proof.
  assert (Hget : redirect_call originAcct targetAcct [follow]
                   (GetAccountByID (Follow.AccountID follow)))
    by (exists follow; cbn; auto).
  assert (Hrm : forall a, redirect_call originAcct targetAcct [follow]
                            (FollowRemove (Some a) (Follow.TargetAccountID follow)))
    by (intros a; exists follow; cbn; repeat split; auto; discriminate).
  unfold redirectFollower, bind, call, ret, follower_calls.
  destruct (DB_GetAccountByID u (Follow.AccountID follow) w) as [[e | account] w1].
  { do 3 eexists. split; [reflexivity |]. split; [each_call |].
    exists (Account.mk "" "" "" None). split; [discriminate |].
    eexists. cbn. reflexivity. }
  cbn [Follow.set_Account Follow.AccountID Follow.Account Follow.ShowReblogs Follow.Notify
       Follow.TargetAccountID].
  destruct (String.eqb_spec (Follow.AccountID follow) (Account.ID targetAcct)) as [Heq | Hne];
    cbn [negb].
  - destruct (account_FollowRemove u (Some account) (Follow.TargetAccountID follow) w1)
      as [[e |] w2];
      do 3 eexists; (split; [reflexivity |]);
      (split; [each_call |]); exists account; cbn.
    + split; [discriminate |]. exists []. reflexivity.
    + reflexivity.
  - assert (Hcr : redirect_call originAcct targetAcct [follow]
                    (FollowCreate (Some account)
                       (AccountFollowRequest.mk (Account.ID targetAcct)
                          (Follow.ShowReblogs follow) (Follow.Notify follow))))
      by (exists follow; cbn; repeat split; auto; discriminate).
    destruct (account_FollowCreate u (Some account) _ w1) as [[e |] w2].
    + do 3 eexists. split; [reflexivity |].
      split; [each_call |]. exists account. cbn.
      split; [discriminate |]. eexists. reflexivity.
    + destruct (account_FollowRemove u (Some account) (Follow.TargetAccountID follow) w2)
        as [[e |] w3];
        do 3 eexists; (split; [reflexivity |]);
        (split; [each_call |]); exists account; cbn.
      * split; [discriminate |]. exists []. reflexivity.
      * reflexivity.
Qed.

Lemma redirect_loop_calls {W} (u : utils W) originAcct targetAcct followers :
  forall w,
  exists r w' tr,
    for_range_return followers (redirectFollower u targetAcct) w = (Ok r, w', tr) /\
    Forall (redirect_call originAcct targetAcct followers) (calls tr) /\
    exists k accounts partial,
      length accounts = k /\
      calls tr =
        flat_map (follower_calls targetAcct) (combine (firstn k followers) accounts)
        ++ partial /\
      match r with
      | None => k = length followers /\ partial = []
      | Some _ =>
          exists follow account,
            nth_error followers k = Some follow /\
            partial <> [] /\
            is_prefix partial (follower_calls targetAcct (follow, account))
      end.
Proof.
  induction followers as [| follow followers IH]; intros w.
  - exists None, w, []. split; [reflexivity |]. split; [constructor |].
    exists 0%nat, [], []. auto.
  - cbn [for_range_return]. unfold bind.
    destruct (redirectFollower_calls u originAcct targetAcct follow w)
      as (r1 & w1 & t1 & E1 & F1 & account & H1).
    rewrite E1.
    assert (F1' : Forall (redirect_call originAcct targetAcct (follow :: followers)) (calls t1)).
    { eapply Forall_impl; [| exact F1]. intros c. apply redirect_call_incl.
      intros x [-> | []]. left. reflexivity. }
    destruct r1 as [b |].
    + destruct H1 as [Hne Hp]. exists (Some b), w1, (t1 ++ []).
      split; [reflexivity |]. rewrite app_nil_r. split; [exact F1' |].
      exists 0%nat, [], (calls t1). split; [reflexivity |]. split; [reflexivity |].
      exists follow, account. auto.
    + destruct (IH w1) as (r2 & w2 & t2 & E2 & F2 & k & accounts & partial & Hlen & Hc & H2).
      rewrite E2. exists r2, w2, (t1 ++ t2). split; [reflexivity |].
      split.
      { rewrite calls_app. apply Forall_app. split; [exact F1' |].
        eapply Forall_impl; [| exact F2]. intros c. apply redirect_call_incl.
        intros x Hx. right. exact Hx. }
      exists (S k), (account :: accounts), partial.
      split; [cbn; now rewrite Hlen |].
      split; [cbn [firstn combine flat_map]; rewrite calls_app, H1, Hc, app_assoc; reflexivity |].
      destruct r2 as [b |].
      * exact H2.
      * destruct H2 as [-> ->]. auto.
Qed.

Lemma redirectFollowers_calls {W} (u : utils W) originAcct targetAcct w :
  exists ok w' tr r,
    redirectFollowers u originAcct targetAcct w = (Ok ok, w', tr) /\
    hd_error tr = Some (GetAccountLocalFollowers (Account.ID originAcct), RetFollows r) /\
    Forall (redirect_call originAcct targetAcct (follows_of r)) (calls tr) /\
    exists k accounts partial,
      length accounts = k /\
      calls tr =
        GetAccountLocalFollowers (Account.ID originAcct)
        :: flat_map (follower_calls targetAcct) (combine (firstn k (follows_of r)) accounts)
        ++ partial /\
      if ok then k = length (follows_of r) /\ partial = []
      else
        (k = 0%nat /\ partial = [] /\ exists err, r = inl err) \/
        (exists follow account,
            nth_error (follows_of r) k = Some follow /\
            partial <> [] /\
            is_prefix partial (follower_calls targetAcct (follow, account))).
Proof.
  unfold redirectFollowers, bind, call.
  destruct (DB_GetAccountLocalFollowers u (Account.ID originAcct) w) as [[e | followers] w1].
  - cbv beta iota. destruct (errors_Is_ErrNoEntries e) eqn:Hnf; cbn [negb].
    + exists true, w1. do 2 eexists. split; [reflexivity |]. split; [reflexivity |].
      split; [cbn; repeat constructor |].
      exists 0%nat, [], []. cbn. auto.
    + exists false, w1. do 2 eexists. split; [reflexivity |]. split; [reflexivity |].
      split; [cbn; repeat constructor |].
      exists 0%nat, [], []. cbn. split; [reflexivity |]. split; [reflexivity |].
      left. eauto.
  - cbv beta iota.
    destruct (redirect_loop_calls u originAcct targetAcct followers w1)
      as (r & w2 & t & E & F & k & accounts & partial & Hlen & Hc & H).
    rewrite E. destruct r as [b |].
    + exists b, w2. do 2 eexists. split; [reflexivity |]. split; [reflexivity |].
      rewrite app_nil_r. cbn [follows_of].
      split; [cbn; constructor; [reflexivity | exact F] |].
      exists k, accounts, partial. split; [exact Hlen |].
      split; [cbn; unfold calls in Hc; rewrite Hc; reflexivity |].
      destruct b.
      * destruct H as (follow & account & Hn & Hne & Hp).
        destruct (redirect_loop_run u targetAcct followers w1)
          as (r' & w3 & t' & E' & H' & _).
        rewrite E in E'. inversion E'; subst. destruct H' as [Hb _]. discriminate Hb.
      * right. exact H.
    + exists true, w2. do 2 eexists. split; [reflexivity |]. split; [reflexivity |].
      rewrite app_nil_r. cbn [follows_of].
      split; [cbn; constructor; [reflexivity | exact F] |].
      exists k, accounts, partial. split; [exact Hlen |].
      split; [cbn; unfold calls in Hc; rewrite Hc; reflexivity |].
      exact H.
Qed.


(** Two followers that are both the target account: no follow is created,
    and both old follows are removed. *)
Example redirectFollowers_only_target_followers :
  redirectFollowers (fake never [] [followBA; followBA]) accountA accountB [] =
    (Ok true, [],
     [(GetAccountLocalFollowers "A", RetFollows (inr [followBA; followBA]));
      (GetAccountByID "B", RetAccount (inr (Account.mk "B" "B" "B" None)));
      (FollowRemove (Some (Account.mk "B" "B" "B" None)) "A", RetErr None);
      (GetAccountByID "B", RetAccount (inr (Account.mk "B" "B" "B" None)));
      (FollowRemove (Some (Account.mk "B" "B" "B" None)) "A", RetErr None)]).
Proof. reflexivity. Qed.

(** X5: every call [redirectFollowers] makes is tied to the followers the
    lookup gave.  Besides the lookup for the origin account, it only
    resolves the account of a follow, creates a follow towards the target
    for a follower that is not the target, carrying over that follow's
    [ShowReblogs] and [Notify], and removes a follow by its own
    [TargetAccountID]; it makes no other call. *)
Theorem redirectFollowers_call_arguments {W} (u : utils W)
  (originAcct targetAcct : Account.t) (w : W) :
  exists ok w' tr r,
    redirectFollowers u originAcct targetAcct w = (Ok ok, w', tr) /\
    hd_error tr = Some (GetAccountLocalFollowers (Account.ID originAcct), RetFollows r) /\
    Forall (redirect_call originAcct targetAcct (follows_of r)) (calls tr).
Proof.
  destruct (redirectFollowers_calls u originAcct targetAcct w)
    as (ok & w' & tr & r & E & Hhd & F & _).
  exists ok, w', tr, r. auto.
Qed.


(** The removal failing for the second of two followers: the first is
    redirected, the second has its new follow but keeps its old one. *)
Example redirectFollowers_stops_at_second_follower :
  let followDA := Follow.mk "F3" "D" None "A" None None in
  let failing c :=
    match c with
    | FollowRemove (Some (Account.mk "D" _ _ _)) _ => Some (ErrOther "remote gone")
    | _ => None
    end in
  let '(r, _, tr) :=
    redirectFollowers (fake failing [] [followCA; followDA; followBA]) accountA accountB [] in
  r = Ok false /\
  calls tr =
    [GetAccountLocalFollowers "A";
     GetAccountByID "C";
     FollowCreate (Some (Account.mk "C" "C" "C" None))
       (AccountFollowRequest.mk "B" (Some true) (Some false));
     FollowRemove (Some (Account.mk "C" "C" "C" None)) "A";
     GetAccountByID "D";
     FollowCreate (Some (Account.mk "D" "D" "D" None)) (AccountFollowRequest.mk "B" None None);
     FollowRemove (Some (Account.mk "D" "D" "D" None)) "A"].
Proof. split; reflexivity. Qed.

(** X7: an origin account without local followers.  When the lookup gives
    an empty list, [redirectFollowers] makes no other call and returns
    [true]. *)
Theorem redirectFollowers_no_followers {W} (u : utils W)
  (originAcct targetAcct : Account.t) (w w1 : W) :
  DB_GetAccountLocalFollowers u (Account.ID originAcct) w = (inr [], w1) ->
  redirectFollowers u originAcct targetAcct w =
    (Ok true, w1, [(GetAccountLocalFollowers (Account.ID originAcct), RetFollows (inr []))]).
Proof.
  intros E. unfold redirectFollowers, bind, call. rewrite E. reflexivity.
Qed.

Lemma redirectFollowers_no_followers_witness :
  redirectFollowers (fake never [] []) accountA accountB [] =
    (Ok true, [], [(GetAccountLocalFollowers "A", RetFollows (inr []))]).
Proof.
  exact (redirectFollowers_no_followers (fake never [] []) accountA accountB [] [] eq_refl).
Defined.

(** ** More on the account counters *)

Lemma run_op_run {W} (u : utils W) (op : CounterOp) (account : Account.t) (w : W) :
  exists r w1,
    DB_PopulateAccountStats u account w = (r, w1) /\
    match r with
    | inl err =>
        run_op u op account w =
          (Ok (account, Some (Wrapf "db error getting account stats: " err)), w1,
           [(Lock (Account.URI account), RetUnit);
            (PopulateAccountStats account, RetStats (inl err));
            (Unlock (Account.URI account), RetUnit)])
    | inr stats0 =>
        exists stats1 err w2,
          run_op u op account w =
            (Ok (Account.set_Stats account (Some stats1),
                 wrapErr "db error updating account stats: " err), w2,
             [(Lock (Account.URI account), RetUnit);
              (PopulateAccountStats account, RetStats (inr stats0));
              (UpdateAccountStats stats1 (map stats_column (touched op)), RetErr err);
              (Unlock (Account.URI account), RetUnit)]) /\
          touched_values op stats0 stats1
    end.
Proof.
  destruct (DB_PopulateAccountStats u account w) as [r w1] eqn:Ep.
  exists r, w1. split; [reflexivity |].
  destruct r as [err | stats0].
  - destruct op; unfold_counter; rewrite Ep; reflexivity.
  - destruct op; unfold_counter; rewrite Ep; cbv zeta;
      match goal with
      | |- context [DB_UpdateAccountStats u ?s ?cols w1] =>
          destruct (DB_UpdateAccountStats u s cols w1) as [err w2] eqn:Eu;
          exists s, err, w2
      end;
      (split; [reflexivity |]);
      cbn; try rewrite <- clamp_max;
      try (match goal with |- context [if ?b then _ else _] => destruct b end);
      cbn; auto.
Qed.

(** X8: every counter operation works under the lock of the account.  On
    every path, the failing ones too, the first event of the run takes the
    lock keyed by the URI of the account, the last one releases it, and the
    calls between them, which begin with the population of the stats, take
    or release no lock. *)
Theorem counter_op_holds_lock {W} (u : utils W)
  (op : CounterOp) (account : Account.t) (w : W) :
  exists r w' mid,
    run_op u op account w =
      (Ok r, w',
       (Lock (Account.URI account), RetUnit) :: mid ++ [(Unlock (Account.URI account), RetUnit)])
    /\
    filter is_lock_call (calls mid) = [] /\
    hd_error (calls mid) = Some (PopulateAccountStats account).
Proof.
  destruct (run_op_run u op account w) as (r & w1 & _ & H).
  destruct r as [err | stats0].
  - do 2 eexists. exists [(PopulateAccountStats account, RetStats (inl err))].
    split; [exact H |]. split; reflexivity.
  - destruct H as (stats1 & err & w2 & E & _).
    do 2 eexists.
    exists [(PopulateAccountStats account, RetStats (inr stats0));
            (UpdateAccountStats stats1 (map stats_column (touched op)), RetErr err)].
    split; [exact E |]. split; reflexivity.
Qed.

(** X9: over a store that hands back the stats held in memory, [n]
    decrements of a counter that holds [v], with [0 <= v <= maxInt], leave
    it at [max 0 (v - n)], whatever the updates return. *)
Theorem decrements_settle {W} (u : utils W) (c : Counter) (n : nat)
  (account : Account.t) (s : AccountStats.t) (w : W) :
  populates_from_memory u ->
  Account.Stats account = Some s ->
  0 <= counter c s <= maxInt ->
  exists account' w' tr s',
    decrements u c n account w = (Ok account', w', tr) /\
    Account.Stats account' = Some s' /\
    counter c s' = Z.max 0 (counter c s - Z.of_nat n).
Proof.
  intros Hp. revert account s w.
  induction n as [| n IH]; intros account s w Hs Hr.
  - exists account, w, [], s. split; [reflexivity |]. split; [exact Hs |]. cbn. lia.
  - cbn [decrements]. unfold bind.
    destruct (decrement_run u c account w) as (r & w1 & Ep & H).
    destruct (Hp account s w Hs) as (w1' & Ep'). rewrite Ep' in Ep. inversion Ep; subst.
    destruct H as (stats1 & err & w2 & E1 & Hv). rewrite E1. cbn [fst].
    assert (Hw : wrapInt (counter c s - 1) = counter c s - 1)
      by (apply wrapInt_small; unfold minInt, maxInt, intSize in *; lia).
    rewrite Hw in Hv.
    destruct (IH (Account.set_Stats account (Some stats1)) stats1 w2 eq_refl)
      as (account' & w' & tr & s' & E & Hs' & Hv').
    { unfold maxInt, intSize in *. lia. }
    rewrite E. do 4 eexists. split; [reflexivity |]. split; [exact Hs' |].
    rewrite Hv', Hv. lia.
Qed.

Lemma decrements_settle_witness :
  exists account' w' tr s',
    decrements (fake never [] []) Statuses 3 accountOne [] = (Ok account', w', tr) /\
    Account.Stats account' = Some s' /\
    counter Statuses s' = Z.max 0 (1 - 3).
Proof.
  apply (decrements_settle (fake never [] []) Statuses 3 accountOne
           (AccountStats.mk "A" 5 6 7 1 0) []).
  - intros account s w Hs. exists w. cbn. rewrite Hs. reflexivity.
  - reflexivity.
  - vm_compute. split; discriminate.
Defined.

Lemma wrapInt_succ_max : wrapInt (maxInt + 1) = minInt.
Proof. reflexivity. Qed.

(** X11: an increment is not clamped.  From a populated counter [v] it
    writes [v + 1], and from [maxInt] it wraps around and writes the
    negative [minInt]. *)
Theorem increment_wraps_at_maxInt {W} (u : utils W) (c : Counter) (status : Status.t)
  (account : Account.t) (w w1 : W) (stats0 : AccountStats.t) :
  DB_PopulateAccountStats u account w = (inr stats0, w1) ->
  minInt <= counter c stats0 <= maxInt ->
  exists stats1 err w2,
    run_op u (increment_op c status) account w =
      (Ok (Account.set_Stats account (Some stats1),
           wrapErr "db error updating account stats: " err), w2,
       [(Lock (Account.URI account), RetUnit);
        (PopulateAccountStats account, RetStats (inr stats0));
        (UpdateAccountStats stats1 (map stats_column (touched (increment_op c status))),
         RetErr err);
        (Unlock (Account.URI account), RetUnit)]) /\
    counter c stats1 =
      (if counter c stats0 =? maxInt then minInt else counter c stats0 + 1).
Proof.
  intros Ep Hr.
  destruct (run_op_run u (increment_op c status) account w) as (r & w1' & Ep' & H).
  rewrite Ep in Ep'. inversion Ep'; subst.
  destruct H as (stats1 & err & w2 & E & Hv).
  exists stats1, err, w2. split; [exact E |].
  assert (Hc : counter c stats1 = wrapInt (counter c stats0 + 1))
    by (destruct c; cbn in Hv |- *; tauto).
  rewrite Hc. destruct (Z.eqb_spec (counter c stats0) maxInt) as [-> | Hne].
  - apply wrapInt_succ_max.
  - apply wrapInt_small. unfold minInt, maxInt, intSize in *. lia.
Qed.

Lemma increment_wraps_at_maxInt_witness :
  exists stats1 err w2,
    run_op (fake never [] []) IncrementFollowers accountMax [] =
      (Ok (Account.set_Stats accountMax (Some stats1),
           wrapErr "db error updating account stats: " err), w2,
       [(Lock (Account.URI accountMax), RetUnit);
        (PopulateAccountStats accountMax, RetStats (inr (AccountStats.mk "A" maxInt 0 0 0 0)));
        (UpdateAccountStats stats1 ["followers_count"], RetErr err);
        (Unlock (Account.URI accountMax), RetUnit)]) /\
    counter Followers stats1 = minInt.
Proof.
  apply (increment_wraps_at_maxInt (fake never [] []) Followers status1 accountMax [] []
           (AccountStats.mk "A" maxInt 0 0 0 0)).
  - reflexivity.
  - vm_compute. split; discriminate.
Defined.

(** X10: over a store that hands back the stats held in memory, an
    increment followed by the decrement of the same counter, from a value
    [v] with [0 <= v < maxInt], leaves every counter as it was; after
    [incrementStatusesCount] and [decrementStatusesCount] the last-status
    time stays at the creation time of the counted status. *)
Theorem increment_then_decrement {W} (u : utils W) (c : Counter) (status : Status.t)
  (account : Account.t) (s : AccountStats.t) (w : W) :
  populates_from_memory u ->
  Account.Stats account = Some s ->
  0 <= counter c s < maxInt ->
  exists r w' tr,
    (r1 <- run_op u (increment_op c status) account ;;
     run_op u (decrement_op c) (fst r1)) w = (Ok r, w', tr) /\
    Account.Stats (fst r) =
      Some match c with
           | Statuses => AccountStats.set_LastStatusAt s (Status.CreatedAt status)
           | _ => s
           end.
Proof.
  intros Hp Hs Hr.
  assert (Hw1 : wrapInt (counter c s + 1) = counter c s + 1)
    by (apply wrapInt_small; unfold minInt, maxInt, intSize in *; lia).
  assert (Hw2 : wrapInt (counter c s + 1 - 1) = counter c s)
    by (rewrite wrapInt_small; unfold minInt, maxInt, intSize in *; lia).
  assert (Hlt : (counter c s <? 0) = false) by (apply Z.ltb_ge; lia).
  destruct (Hp account s w Hs) as (w1 & Ep1).
  unfold bind at 1.
  destruct (run_op u (increment_op c status) account w) as [[r1 w2] t1] eqn:E1.
  revert E1.
  destruct c; cbn [increment_op decrement_op counter] in *; unfold_counter; rewrite Ep1;
    cbv zeta;
    match goal with
    | |- context [DB_UpdateAccountStats u ?s1 ?cols w1] =>
        destruct (DB_UpdateAccountStats u s1 cols w1) as [err1 w3] eqn:Eu1
    end;
    intros E1; inversion E1; subst; clear E1; cbn [fst];
    match goal with
    | |- context [DB_PopulateAccountStats u ?a ?w0] =>
        destruct (Hp a _ w0 eq_refl) as (w4 & Ep2); rewrite Ep2
    end;
    cbn [AccountStats.set_StatusesCount AccountStats.set_FollowersCount
         AccountStats.set_FollowingCount AccountStats.set_FollowRequestsCount
         AccountStats.set_LastStatusAt AccountStats.StatusesCount AccountStats.FollowersCount
         AccountStats.FollowingCount AccountStats.FollowRequestsCount
         AccountStats.AccountID AccountStats.LastStatusAt];
    rewrite Hw1, Hw2, Hlt;
    match goal with
    | |- context [DB_UpdateAccountStats u ?s1 ?cols ?w0] =>
        destruct (DB_UpdateAccountStats u s1 cols w0) as [err2 w5] eqn:Eu2
    end;
    do 3 eexists; (split; [reflexivity |]); destruct s; reflexivity.
Qed.

(** ** More on the interaction approvals *)

Lemma increment_then_decrement_witness :
  exists r w' tr,
    (r1 <- run_op (fake never [] []) (increment_op Statuses status1) accountOne ;;
     run_op (fake never [] []) (decrement_op Statuses) (fst r1)) [] = (Ok r, w', tr) /\
    Account.Stats (fst r) =
      Some (AccountStats.set_LastStatusAt (AccountStats.mk "A" 5 6 7 1 0)
              (Status.CreatedAt status1)).
Proof.
  apply (increment_then_decrement (fake never [] []) Statuses status1 accountOne
           (AccountStats.mk "A" 5 6 7 1 0) []).
  - intros account s w Hs. exists w. cbn. rewrite Hs. reflexivity.
  - reflexivity.
  - vm_compute. split; [discriminate | reflexivity].
Defined.

(** X12: an approval needs the account interacted with.  Each of the three
    functions first draws an identifier; when the target account of the
    subject ([TargetAccount], [InReplyToAccount], [BoostOfAccount]) is nil
    it then panics, having stored nothing; otherwise it returns. *)
Theorem approve_panics_without_target {W} (u : utils W) :
  (forall fave w,
      exists id w1,
        id_NewULID u w = (id, w1) /\
        match StatusFave.TargetAccount fave with
        | None => approveFave u fave w = (Panic, w1, [(NewULID, RetString id)])
        | Some _ =>
            exists r w' tr, approveFave u fave w = (Ok r, w', (NewULID, RetString id) :: tr)
        end) /\
  (forall status w,
      exists id w1,
        id_NewULID u w = (id, w1) /\
        match Status.InReplyToAccount status with
        | None => approveReply u status w = (Panic, w1, [(NewULID, RetString id)])
        | Some _ =>
            exists r w' tr, approveReply u status w = (Ok r, w', (NewULID, RetString id) :: tr)
        end) /\
  (forall boost w,
      exists id w1,
        id_NewULID u w = (id, w1) /\
        match Status.BoostOfAccount boost with
        | None => approveAnnounce u boost w = (Panic, w1, [(NewULID, RetString id)])
        | Some _ =>
            exists r w' tr, approveAnnounce u boost w = (Ok r, w', (NewULID, RetString id) :: tr)
        end).
Proof.
  split; [| split].
  - intros fave w. unfold_approve. destruct (id_NewULID u w) as [id w1].
    exists id, w1. split; [reflexivity |].
    destruct (StatusFave.TargetAccount fave) as [target |]; [| reflexivity].
    match goal with
    | |- context [DB_PutInteractionApproval u ?a w1] =>
        destruct (DB_PutInteractionApproval u a w1) as [[e |] w2]
    end; [do 3 eexists; reflexivity |].
    match goal with
    | |- context [DB_UpdateStatusFave u ?f ?c w2] =>
        destruct (DB_UpdateStatusFave u f c w2) as [[e |] w3]
    end; do 3 eexists; reflexivity.
  - intros status w. unfold_approve. destruct (id_NewULID u w) as [id w1].
    exists id, w1. split; [reflexivity |].
    destruct (Status.InReplyToAccount status) as [target |]; [| reflexivity].
    match goal with
    | |- context [DB_PutInteractionApproval u ?a w1] =>
        destruct (DB_PutInteractionApproval u a w1) as [[e |] w2]
    end; [do 3 eexists; reflexivity |].
    match goal with
    | |- context [DB_UpdateStatus u ?f ?c w2] =>
        destruct (DB_UpdateStatus u f c w2) as [[e |] w3]
    end; do 3 eexists; reflexivity.
  - intros boost w. unfold_approve. destruct (id_NewULID u w) as [id w1].
    exists id, w1. split; [reflexivity |].
    destruct (Status.BoostOfAccount boost) as [target |]; [| reflexivity].
    match goal with
    | |- context [DB_PutInteractionApproval u ?a w1] =>
        destruct (DB_PutInteractionApproval u a w1) as [[e |] w2]
    end; [do 3 eexists; reflexivity |].
    match goal with
    | |- context [DB_UpdateStatus u ?f ?c w2] =>
        destruct (DB_UpdateStatus u f c w2) as [[e |] w3]
    end; do 3 eexists; reflexivity.
Qed.

Ltac compute_fields :=
  cbv beta iota delta
    [StatusFave.set_PendingApproval StatusFave.set_PreApproved StatusFave.set_ApprovedByURI
     StatusFave.ID StatusFave.URI StatusFave.AccountID StatusFave.Account
     StatusFave.TargetAccountID StatusFave.TargetAccount StatusFave.PendingApproval
     StatusFave.PreApproved StatusFave.ApprovedByURI
     Status.set_PendingApproval Status.set_PreApproved Status.set_ApprovedByURI
     Status.ID Status.URI Status.CreatedAt Status.AccountID Status.Account
     Status.AttachmentIDs Status.MentionIDs Status.PollID Status.InReplyToAccountID
     Status.InReplyToAccount Status.BoostOfAccountID Status.BoostOfAccount
     Status.PendingApproval Status.PreApproved Status.ApprovedByURI
     InteractionApproval.URI].

(** X13: an approval does not look at the approval state of its subject.
    Run from the same world on a subject and on the same subject with any
    other pending flag, pre-approval flag and approving URI (an already
    approved one, say), each function makes the same calls, stores the same
    new approval and returns the same result: nothing keeps a subject from
    being approved twice. *)
Theorem approve_ignores_approval_state {W} (u : utils W) :
  (forall fave pending preApproved approvedBy w,
      same_approval_run
        (approveFave u fave w)
        (approveFave u (fave_with_approval_state fave pending preApproved approvedBy) w)) /\
  (forall status pending preApproved approvedBy w,
      same_approval_run
        (approveReply u status w)
        (approveReply u (status_with_approval_state status pending preApproved approvedBy) w)) /\
  (forall boost pending preApproved approvedBy w,
      same_approval_run
        (approveAnnounce u boost w)
        (approveAnnounce u (status_with_approval_state boost pending preApproved approvedBy) w)).
Proof.
  split; [| split].
  - intros fave p q v w. destruct fave.
    unfold same_approval_run, fave_with_approval_state. unfold_approve.
    compute_fields. destruct (id_NewULID u w) as [id w1].
    match goal with
    | |- context [match ?o with Some _ => _ | None => _ end] => destruct o as [target |]
    end; [| auto].
    match goal with
    | |- context [DB_PutInteractionApproval u ?a w1] =>
        destruct (DB_PutInteractionApproval u a w1) as [[e |] w2]
    end; [auto |].
    match goal with
    | |- context [DB_UpdateStatusFave u ?f ?c w2] =>
        destruct (DB_UpdateStatusFave u f c w2) as [[e |] w3]
    end; auto.
  - intros s p q v w. destruct s.
    unfold same_approval_run, status_with_approval_state. unfold_approve.
    compute_fields. destruct (id_NewULID u w) as [id w1].
    match goal with
    | |- context [match ?o with Some _ => _ | None => _ end] => destruct o as [target |]
    end; [| auto].
    match goal with
    | |- context [DB_PutInteractionApproval u ?a w1] =>
        destruct (DB_PutInteractionApproval u a w1) as [[e |] w2]
    end; [auto |].
    match goal with
    | |- context [DB_UpdateStatus u ?f ?c w2] =>
        destruct (DB_UpdateStatus u f c w2) as [[e |] w3]
    end; auto.
  - intros s p q v w. destruct s.
    unfold same_approval_run, status_with_approval_state. unfold_approve.
    compute_fields. destruct (id_NewULID u w) as [id w1].
    match goal with
    | |- context [match ?o with Some _ => _ | None => _ end] => destruct o as [target |]
    end; [| auto].
    match goal with
    | |- context [DB_PutInteractionApproval u ?a w1] =>
        destruct (DB_PutInteractionApproval u a w1) as [[e |] w2]
    end; [auto |].
    match goal with
    | |- context [DB_UpdateStatus u ?f ?c w2] =>
        destruct (DB_UpdateStatus u f c w2) as [[e |] w3]
    end; auto.
Qed.

(** X14: the two errors of an approval.  When a function returns an error,
    either the approval could not be stored, the error wraps the store's
    under "db error inserting interaction approval: ", and the subject is
    untouched and not updated; or the update of the subject failed, the
    error wraps the store's under the annotation of that update, the
    approval stays stored and the subject in memory is already marked
    approved. *)
Theorem approve_error_leaves_no_rollback {W} (u : utils W) :
  (forall fave w fave' err w' tr,
      approveFave u fave w = (Ok (fave', inl err), w', tr) ->
      exists approval e,
        (err = Wrapf "db error inserting interaction approval: " e /\
         fave' = fave /\
         In (PutInteractionApproval approval, RetErr (Some e)) tr /\
         no_subject_update tr)
        \/
        (err = Wrapf "db error updating status fave: " e /\
         fave' = approved_fave fave (InteractionApproval.URI approval) /\
         In (PutInteractionApproval approval, RetErr None) tr /\
         In (UpdateStatusFave fave' approval_columns, RetErr (Some e)) tr)) /\
  (forall status w status' err w' tr,
      approveReply u status w = (Ok (status', inl err), w', tr) ->
      exists approval e,
        (err = Wrapf "db error inserting interaction approval: " e /\
         status' = status /\
         In (PutInteractionApproval approval, RetErr (Some e)) tr /\
         no_subject_update tr)
        \/
        (err = Wrapf "db error updating status: " e /\
         status' = approved_status status (InteractionApproval.URI approval) /\
         In (PutInteractionApproval approval, RetErr None) tr /\
         In (UpdateStatus status' approval_columns, RetErr (Some e)) tr)) /\
  (forall boost w boost' err w' tr,
      approveAnnounce u boost w = (Ok (boost', inl err), w', tr) ->
      exists approval e,
        (err = Wrapf "db error inserting interaction approval: " e /\
         boost' = boost /\
         In (PutInteractionApproval approval, RetErr (Some e)) tr /\
         no_subject_update tr)
        \/
        (err = Wrapf "db error updating boost wrapper status: " e /\
         boost' = approved_status boost (InteractionApproval.URI approval) /\
         In (PutInteractionApproval approval, RetErr None) tr /\
         In (UpdateStatus boost' approval_columns, RetErr (Some e)) tr)).
Proof.
  split; [| split].
  - intros fave w fave' err w' tr E.
    destruct (approveFave_run u _ _ _ _ _ _ E) as (approval & pre & _ & Hn & H).
    exists approval.
    destruct H as [(-> & -> & e & Hin & He) | (-> & Hin & o & -> & Ho)].
    + exists e. left. inversion He. auto.
    + destruct o as [e |]; [| discriminate Ho]. exists e. right. inversion Ho.
      repeat split; [apply in_or_app; left; exact Hin |].
      apply in_or_app. right. left. reflexivity.
  - intros status w status' err w' tr E.
    destruct (approveReply_run u _ _ _ _ _ _ E) as (approval & pre & _ & Hn & H).
    exists approval.
    destruct H as [(-> & -> & e & Hin & He) | (-> & Hin & o & -> & Ho)].
    + exists e. left. inversion He. auto.
    + destruct o as [e |]; [| discriminate Ho]. exists e. right. inversion Ho.
      repeat split; [apply in_or_app; left; exact Hin |].
      apply in_or_app. right. left. reflexivity.
  - intros boost w boost' err w' tr E.
    destruct (approveAnnounce_run u _ _ _ _ _ _ E) as (approval & pre & _ & Hn & H).
    exists approval.
    destruct H as [(-> & -> & e & Hin & He) | (-> & Hin & o & -> & Ho)].
    + exists e. left. inversion He. auto.
    + destruct o as [e |]; [| discriminate Ho]. exists e. right. inversion Ho.
      repeat split; [apply in_or_app; left; exact Hin |].
      apply in_or_app. right. left. reflexivity.
Qed.

(** X15: what a returned approval refers to.  Its identifier is the one
    drawn in the run; its account is the account interacted with and its
    interacting account the author of the subject, by identifier and by
    reference; its interaction URI is the URI of the subject; its own URI
    is generated from the username of the account interacted with and its
    identifier, and is the approving URI left in the subject. *)
Theorem approval_links_subject_and_accounts {W} (u : utils W) :
  (forall fave w fave' approval w' tr,
      approveFave u fave w = (Ok (fave', inr approval), w', tr) ->
      exists id target,
        hd_error tr = Some (NewULID, RetString id) /\
        StatusFave.TargetAccount fave = Some target /\
        InteractionApproval.ID approval = id /\
        InteractionApproval.AccountID approval = StatusFave.TargetAccountID fave /\
        InteractionApproval.Account approval = Some target /\
        InteractionApproval.InteractingAccountID approval = StatusFave.AccountID fave /\
        InteractionApproval.InteractingAccount approval = StatusFave.Account fave /\
        InteractionApproval.InteractionURI approval = StatusFave.URI fave /\
        InteractionApproval.URI approval =
          uris_GenerateURIForAccept u (Account.Username target) id /\
        StatusFave.ApprovedByURI fave' = InteractionApproval.URI approval) /\
  (forall status w status' approval w' tr,
      approveReply u status w = (Ok (status', inr approval), w', tr) ->
      exists id target,
        hd_error tr = Some (NewULID, RetString id) /\
        Status.InReplyToAccount status = Some target /\
        InteractionApproval.ID approval = id /\
        InteractionApproval.AccountID approval = Status.InReplyToAccountID status /\
        InteractionApproval.Account approval = Some target /\
        InteractionApproval.InteractingAccountID approval = Status.AccountID status /\
        InteractionApproval.InteractingAccount approval = Status.Account status /\
        InteractionApproval.InteractionURI approval = Status.URI status /\
        InteractionApproval.URI approval =
          uris_GenerateURIForAccept u (Account.Username target) id /\
        Status.ApprovedByURI status' = InteractionApproval.URI approval) /\
  (forall boost w boost' approval w' tr,
      approveAnnounce u boost w = (Ok (boost', inr approval), w', tr) ->
      exists id target,
        hd_error tr = Some (NewULID, RetString id) /\
        Status.BoostOfAccount boost = Some target /\
        InteractionApproval.ID approval = id /\
        InteractionApproval.AccountID approval = Status.BoostOfAccountID boost /\
        InteractionApproval.Account approval = Some target /\
        InteractionApproval.InteractingAccountID approval = Status.AccountID boost /\
        InteractionApproval.InteractingAccount approval = Status.Account boost /\
        InteractionApproval.InteractionURI approval = Status.URI boost /\
        InteractionApproval.URI approval =
          uris_GenerateURIForAccept u (Account.Username target) id /\
        Status.ApprovedByURI boost' = InteractionApproval.URI approval).
Proof.
  split; [| split].
  - intros fave w fave' approval w' tr. unfold_approve.
    destruct (id_NewULID u w) as [id w1].
    destruct (StatusFave.TargetAccount fave) as [target |] eqn:Et; [| discriminate].
    match goal with
    | |- context [DB_PutInteractionApproval u ?a w1] =>
        destruct (DB_PutInteractionApproval u a w1) as [[e |] w2]
    end; [discriminate |].
    match goal with
    | |- context [DB_UpdateStatusFave u ?f ?c w2] =>
        destruct (DB_UpdateStatusFave u f c w2) as [[e |] w3]
    end; [discriminate |].
    intros E. inversion E; subst. exists id, target. cbn. repeat split.
  - intros status w status' approval w' tr. unfold_approve.
    destruct (id_NewULID u w) as [id w1].
    destruct (Status.InReplyToAccount status) as [target |] eqn:Et; [| discriminate].
    match goal with
    | |- context [DB_PutInteractionApproval u ?a w1] =>
        destruct (DB_PutInteractionApproval u a w1) as [[e |] w2]
    end; [discriminate |].
    match goal with
    | |- context [DB_UpdateStatus u ?f ?c w2] =>
        destruct (DB_UpdateStatus u f c w2) as [[e |] w3]
    end; [discriminate |].
    intros E. inversion E; subst. exists id, target. cbn. repeat split.
  - intros boost w boost' approval w' tr. unfold_approve.
    destruct (id_NewULID u w) as [id w1].
    destruct (Status.BoostOfAccount boost) as [target |] eqn:Et; [| discriminate].
    match goal with
    | |- context [DB_PutInteractionApproval u ?a w1] =>
        destruct (DB_PutInteractionApproval u a w1) as [[e |] w2]
    end; [discriminate |].
    match goal with
    | |- context [DB_UpdateStatus u ?f ?c w2] =>
        destruct (DB_UpdateStatus u f c w2) as [[e |] w3]
    end; [discriminate |].
    intros E. inversion E; subst. exists id, target. cbn. repeat split.
Qed.

Lemma approve_error_leaves_no_rollback_witness :
  exists approval e,
    (Wrapf "db error updating status fave: " (ErrOther "locked") =
       Wrapf "db error inserting interaction approval: " e /\
     approved_fave fave1 "b/accepts/01J" = fave1 /\
     In (PutInteractionApproval approval, RetErr (Some e))
       [(NewULID, RetString "01J");
        (PutInteractionApproval
           (InteractionApproval.mk "01J" "B" (Some accountB) "C" None
              "https://example.org/users/c/liked/FV1" InteractionLike "b/accepts/01J"),
         RetErr None);
        (UpdateStatusFave (approved_fave fave1 "b/accepts/01J") approval_columns,
         RetErr (Some (ErrOther "locked")))] /\
     no_subject_update
       [(NewULID, RetString "01J");
        (PutInteractionApproval
           (InteractionApproval.mk "01J" "B" (Some accountB) "C" None
              "https://example.org/users/c/liked/FV1" InteractionLike "b/accepts/01J"),
         RetErr None);
        (UpdateStatusFave (approved_fave fave1 "b/accepts/01J") approval_columns,
         RetErr (Some (ErrOther "locked")))])
    \/
    (Wrapf "db error updating status fave: " (ErrOther "locked") =
       Wrapf "db error updating status fave: " e /\
     approved_fave fave1 "b/accepts/01J" =
       approved_fave fave1 (InteractionApproval.URI approval) /\
     In (PutInteractionApproval approval, RetErr None)
       [(NewULID, RetString "01J");
        (PutInteractionApproval
           (InteractionApproval.mk "01J" "B" (Some accountB) "C" None
              "https://example.org/users/c/liked/FV1" InteractionLike "b/accepts/01J"),
         RetErr None);
        (UpdateStatusFave (approved_fave fave1 "b/accepts/01J") approval_columns,
         RetErr (Some (ErrOther "locked")))] /\
     In (UpdateStatusFave (approved_fave fave1 "b/accepts/01J") approval_columns,
         RetErr (Some e))
       [(NewULID, RetString "01J");
        (PutInteractionApproval
           (InteractionApproval.mk "01J" "B" (Some accountB) "C" None
              "https://example.org/users/c/liked/FV1" InteractionLike "b/accepts/01J"),
         RetErr None);
        (UpdateStatusFave (approved_fave fave1 "b/accepts/01J") approval_columns,
         RetErr (Some (ErrOther "locked")))]).
Proof.
  exact (proj1 (approve_error_leaves_no_rollback
                  (fake (fun c => match c with
                                  | UpdateStatusFave _ _ => Some (ErrOther "locked")
                                  | _ => None
                                  end) [] []))
           fave1 ["01J"] _ _ _ _ eq_refl).
Defined.

Lemma approval_links_subject_and_accounts_witness :
  exists id target,
    hd_error
      [(NewULID, RetString "01J");
       (PutInteractionApproval
          (InteractionApproval.mk "01J" "B" (Some accountB) "C" None
             "https://example.org/users/c/liked/FV1" InteractionLike "b/accepts/01J"),
        RetErr None);
       (UpdateStatusFave (approved_fave fave1 "b/accepts/01J") approval_columns, RetErr None)] =
      Some (NewULID, RetString id) /\
    StatusFave.TargetAccount fave1 = Some target /\
    "01J" = id /\
    "B" = StatusFave.TargetAccountID fave1 /\
    Some accountB = Some target /\
    "C" = StatusFave.AccountID fave1 /\
    None = StatusFave.Account fave1 /\
    "https://example.org/users/c/liked/FV1" = StatusFave.URI fave1 /\
    "b/accepts/01J" =
      uris_GenerateURIForAccept (fake never [] []) (Account.Username target) id /\
    StatusFave.ApprovedByURI (approved_fave fave1 "b/accepts/01J") = "b/accepts/01J".
Proof.
  exact (proj1 (approval_links_subject_and_accounts (fake never [] []))
           fave1 ["01J"] _ _ _ _ eq_refl).
Defined.
